(** * APSystems cloud API client and Home Assistant sensor: a shallow embedding

    The development follows the two source files of the integration:

    - [custom_components/apsystems-api/api.py]: the request signer
      ([_hmac_sha256], [_request_headers]), the two fetch operations
      ([system_summary], [ecu_minutely_energy]) and the two result records;
    - [custom_components/apsystems-api/sensor.py]: the sensor entity
      ([available], [update]).

    Python values are modelled as follows.  A [str] is a Rocq [string] whose
    characters are code points below 256 (a [str] with a code point from 256
    on is outside the model); [bytes] is a [list byte]; an [int]
    is a [Z]; an exception is a constructor of [exn] and a call that may
    raise returns a [result].  What the environment supplies (the clock, the
    random UUID, the HTTP server, the astral computations of the host
    platform) is passed in explicitly. *)

From Stdlib Require Import ZArith NArith List String Ascii Bool Lia.
From Stdlib Require Import Numbers.DecimalString.
From Stdlib Require Init.Byte.
From Stdlib Require Import Floats.SpecFloat.
Import ListNotations.

Local Open Scope list_scope.
Local Open Scope string_scope.
Local Open Scope Z_scope.

(** ** Exceptions and results *)

(** The exception classes the two files can meet.  All but
    [KeyboardInterrupt] derive from Python's [Exception]. *)
Inductive exn : Type :=
| IndexError
| KeyError
| TypeError
| AttributeError
| RequestException                  (* requests: connection failures, timeouts *)
| HTTPError (status : Z)            (* requests: raise_for_status *)
| JSONDecodeError                   (* requests: response.json() *)
| ResponseException (message : string)  (* APSystemsApi.ResponseException *)
| KeyboardInterrupt.                (* a BaseException that is no Exception *)

Definition isinstance_Exception (e : exn) : bool :=
  match e with
  | KeyboardInterrupt => false
  | _ => true
  end.

Inductive result (A : Type) : Type :=
| Return (a : A)
| Raise (e : exn).

Arguments Return {A} a.
Arguments Raise {A} e.

Definition bind {A B : Type} (m : result A) (k : A -> result B) : result B :=
  match m with
  | Return a => k a
  | Raise e => Raise e
  end.

Notation "x <- m ;; k" := (bind m (fun x => k))
  (at level 61, m at next level, right associativity).

(** [try: body except Exception: handler] *)
Definition try_except_Exception {A : Type} (body : result A) (handler : exn -> result A)
  : result A :=
  match body with
  | Return a => Return a
  | Raise e => if isinstance_Exception e then handler e else Raise e
  end.

(** ** Python built-ins used by the client *)

Module Py.

(** [l[i]] on a list: a negative index counts from the end, an index out of
    range raises [IndexError]. *)
Definition list_getitem {A : Type} (l : list A) (i : Z) : result A :=
  let n := Z.of_nat (List.length l) in
  let j := if i <? 0 then i + n else i in
  if (j <? 0) || (n <=? j) then Raise IndexError
  else match nth_error l (Z.to_nat j) with
       | Some x => Return x
       | None => Raise IndexError
       end.

(** [s.split(sep)] for a one-character separator: every occurrence of the
    separator cuts, so the result is never empty. *)
Fixpoint split (sep : ascii) (s : string) : list string :=
  match s with
  | EmptyString => [EmptyString]
  | String c rest =>
      if Ascii.eqb c sep then EmptyString :: split sep rest
      else match split sep rest with
           | [] => [String c EmptyString]
           | hd :: tl => String c hd :: tl
           end
  end.

(** [sep.join(parts)] *)
Fixpoint join (sep : string) (parts : list string) : string :=
  match parts with
  | [] => EmptyString
  | [p] => p
  | p :: rest => p ++ sep ++ join sep rest
  end.

(** [s.isascii()] *)
Definition is_ascii (s : string) : bool :=
  forallb (fun c => Z.of_N (N_of_ascii c) <? 128) (list_ascii_of_string s).

(** [s.upper()], one character at a time.  The small letters of ASCII and
    of Latin-1 (224 to 254 without the division sign 247) go to their capitals
    32 places below, and the sharp s (223) to two capital S.  The capitals of
    the micro sign (181) and of y with diaeresis (255) lie beyond 255, outside
    the strings modelled here: these two are left as they are, and every
    statement that names the upper-cased text is made for ASCII text. *)
Definition upper_char (c : ascii) : string :=
  let n := Z.of_N (N_of_ascii c) in
  if ((97 <=? n) && (n <=? 122)) || ((224 <=? n) && (n <=? 254) && negb (n =? 247))
  then String (ascii_of_N (Z.to_N (n - 32))) EmptyString
  else if n =? 223 then "SS"
  else String c EmptyString.

Fixpoint upper (s : string) : string :=
  match s with
  | EmptyString => EmptyString
  | String c rest => upper_char c ++ upper rest
  end.

(** [s.lower()]: the capitals of ASCII and of Latin-1 (192 to 222 without
    the multiplication sign 215) go to their small letters 32 places above;
    every other code point below 256 is its own lower case. *)
Definition lower_char (c : ascii) : ascii :=
  let n := Z.of_N (N_of_ascii c) in
  if ((65 <=? n) && (n <=? 90)) || ((192 <=? n) && (n <=? 222) && negb (n =? 215))
  then ascii_of_N (Z.to_N (n + 32)) else c.

Fixpoint lower (s : string) : string :=
  match s with
  | EmptyString => EmptyString
  | String c rest => String (lower_char c) (lower rest)
  end.

(** [str(n)] and [f"{n}"] for an [int]. *)
Definition str_of_int (n : Z) : string :=
  NilEmpty.string_of_int (Z.to_int n).

(** One lowercase hexadecimal digit. *)
Definition hex_digit (d : Z) : ascii :=
  if d <? 10 then ascii_of_N (Z.to_N (48 + d)) else ascii_of_N (Z.to_N (87 + d)).

(** [n] as [width] lowercase hexadecimal digits, most significant first
    (['%0{width}x' % n] for [0 <= n < 16 ^ width]). *)
Fixpoint hex_fixed (width : nat) (n : Z) : string :=
  match width with
  | O => EmptyString
  | S w => hex_fixed w (n / 16) ++ String (hex_digit (n mod 16)) EmptyString
  end.

(** [n] in decimal, zero-padded on the left to [width] digits
    (strftime's [%m] and [%d]). *)
Definition zero_pad (width : nat) (n : Z) : string :=
  let s := str_of_int n in
  let fix zeros (k : nat) : string :=
    match k with
    | O => EmptyString
    | S k' => String "0" (zeros k')
    end in
  zeros (width - String.length s)%nat ++ s.

(** [s.startswith(prefix)] *)
Fixpoint startswith (s prefix : string) : bool :=
  match prefix, s with
  | EmptyString, _ => true
  | String _ _, EmptyString => false
  | String a prefix', String b s' => Ascii.eqb b a && startswith s' prefix'
  end.

(** [needle in haystack] on strings. *)
Fixpoint contains (haystack needle : string) : bool :=
  startswith haystack needle ||
  match haystack with
  | EmptyString => false
  | String _ rest => contains rest needle
  end.

End Py.

(** ** Bytes, UTF-8, SHA-256, HMAC and base64

    [key.encode()], [hmac.new(key, message, hashlib.sha256).digest()] and
    [base64.b64encode] belong to Python's standard library; they are written
    out here from their specifications (RFC 3629, FIPS 180-4, RFC 2104,
    RFC 4648) so that a signature can be computed inside the model. *)

Module Bytes.

Definition bytes : Type := list Byte.byte.

Definition to_Z (b : Byte.byte) : Z := Z.of_N (Byte.to_N b).

Definition of_Z (z : Z) : Byte.byte :=
  match Byte.of_N (Z.to_N (z mod 256)) with
  | Some b => b
  | None => Byte.x00
  end.

(** [s.encode()]: UTF-8.  A code point below 128 is one byte, one from 128
    to 255 is two. *)
Fixpoint encode (s : string) : bytes :=
  match s with
  | EmptyString => []
  | String c rest =>
      let n := Z.of_N (N_of_ascii c) in
      if n <? 128 then of_Z n :: encode rest
      else of_Z (Z.lor 192 (Z.shiftr n 6)) :: of_Z (Z.lor 128 (Z.land n 63)) :: encode rest
  end.

(** [b.decode("utf-8")] on ASCII bytes, which is all base64 emits. *)
Definition decode_ascii (b : bytes) : string :=
  string_of_list_ascii (List.map ascii_of_byte b).

End Bytes.

Module SHA256.

Import Bytes.

Definition w32 (x : Z) : Z := x mod 2 ^ 32.
Definition add32 (x y : Z) : Z := w32 (x + y).
Definition rotr (n x : Z) : Z := w32 (Z.lor (Z.shiftr x n) (Z.shiftl x (32 - n))).
Definition shr (n x : Z) : Z := Z.shiftr x n.
Definition not32 (x : Z) : Z := Z.lxor x 0xffffffff.

Definition Ch (x y z : Z) : Z := Z.lxor (Z.land x y) (Z.land (not32 x) z).
Definition Maj (x y z : Z) : Z :=
  Z.lxor (Z.lxor (Z.land x y) (Z.land x z)) (Z.land y z).
Definition Sigma0 (x : Z) : Z := Z.lxor (Z.lxor (rotr 2 x) (rotr 13 x)) (rotr 22 x).
Definition Sigma1 (x : Z) : Z := Z.lxor (Z.lxor (rotr 6 x) (rotr 11 x)) (rotr 25 x).
Definition sigma0 (x : Z) : Z := Z.lxor (Z.lxor (rotr 7 x) (rotr 18 x)) (shr 3 x).
Definition sigma1 (x : Z) : Z := Z.lxor (Z.lxor (rotr 17 x) (rotr 19 x)) (shr 10 x).

(** The primes below [bound], in increasing order. *)
Definition is_prime (n : Z) : bool :=
  (2 <=? n) && forallb (fun d => negb (n mod Z.of_nat d =? 0)) (seq 2 (Z.to_nat n - 2)).

Definition primes_below (bound : nat) : list Z :=
  filter is_prime (List.map Z.of_nat (seq 0 bound)).

(** The integer part of the cube root of [n], found bit by bit from
    [2 ^ bits] down. *)
Fixpoint cube_root (bits : nat) (n : Z) (r : Z) : Z :=
  match bits with
  | O => r
  | S b =>
      let c := r + 2 ^ Z.of_nat b in
      cube_root b n (if c * c * c <=? n then c else r)
  end.

(** The round constants: the first 32 bits of the fractional parts of the
    cube roots of the first 64 primes. *)
Definition K : list Z :=
  Eval vm_compute in
    List.map (fun p => w32 (cube_root 36 (p * 2 ^ 96) 0)) (primes_below 312).

(** The initial hash value: the first 32 bits of the fractional parts of the
    square roots of the first 8 primes. *)
Definition H0 : list Z :=
  Eval vm_compute in
    List.map (fun p => w32 (Z.sqrt (p * 2 ^ 64))) (primes_below 20).

(** [n] as [width] bytes, most significant first. *)
Fixpoint big_endian (width : nat) (n : Z) : list Z :=
  match width with
  | O => []
  | S w => (big_endian w (n / 256) ++ [n mod 256])%list
  end.

(** The message followed by the bit 1, zeros up to 56 modulo 64, and the
    length in bits on eight bytes. *)
Definition pad (msg : list Z) : list Z :=
  let len := Z.of_nat (List.length msg) in
  let zeros := Z.to_nat ((55 - len) mod 64) in
  (msg ++ [0x80] ++ List.repeat 0 zeros ++ big_endian 8 (8 * len))%list.

(** Words of four bytes, most significant first. *)
Fixpoint words (l : list Z) : list Z :=
  match l with
  | a :: b :: c :: d :: rest => (((a * 256 + b) * 256 + c) * 256 + d) :: words rest
  | _ => []
  end.

Fixpoint chunks {A : Type} (size : nat) (count : nat) (l : list A) : list (list A) :=
  match count with
  | O => []
  | S k => firstn size l :: chunks size k (skipn size l)
  end.

(** The message schedule: [more] further words after those of [w]. *)
Fixpoint schedule (more : nat) (w : list Z) : list Z :=
  match more with
  | O => w
  | S k =>
      let t := List.length w in
      let at_ (back : nat) := nth (t - back) w 0 in
      schedule k (w ++ [w32 (sigma1 (at_ 2%nat) + at_ 7%nat + sigma0 (at_ 15%nat) + at_ 16%nat)])%list
  end.

Definition round (s : list Z) (kw : Z * Z) : list Z :=
  match s with
  | [a; b; c; d; e; f; g; h] =>
      let t1 := w32 (h + Sigma1 e + Ch e f g + fst kw + snd kw) in
      let t2 := w32 (Sigma0 a + Maj a b c) in
      [add32 t1 t2; a; b; c; add32 d t1; e; f; g]
  | _ => s
  end.

Fixpoint add_words (x y : list Z) : list Z :=
  match x, y with
  | a :: x', b :: y' => add32 a b :: add_words x' y'
  | _, _ => []
  end.

Definition compress (h : list Z) (block : list Z) : list Z :=
  let w := schedule 48 (words block) in
  add_words h (fold_left round (combine K w) h).

Definition digest_Z (msg : list Z) : list Z :=
  let padded := pad msg in
  let blocks := chunks 64 (List.length padded / 64) padded in
  flat_map (big_endian 4) (fold_left compress blocks H0).

(** [hashlib.sha256(msg).digest()] *)
Definition digest (msg : bytes) : bytes :=
  List.map of_Z (digest_Z (List.map to_Z msg)).

End SHA256.

Module HMAC.

Import Bytes.

Definition block_size : nat := 64.

(** [hmac.new(key, msg, hashlib.sha256).digest()]: a key longer than a block
    is hashed first, the key is padded with zeros to a block, and the digest
    is H((key xor opad) + H((key xor ipad) + msg)). *)
Definition sha256_digest (key msg : bytes) : bytes :=
  let k := List.map to_Z (if (block_size <? List.length key)%nat then SHA256.digest key else key) in
  let k := (k ++ List.repeat 0 (block_size - List.length k))%list in
  let inner := SHA256.digest_Z (List.map (Z.lxor 0x36) k ++ List.map to_Z msg)%list in
  List.map of_Z (SHA256.digest_Z (List.map (Z.lxor 0x5c) k ++ inner)%list).

End HMAC.

Module Base64.

Import Bytes.

Definition alphabet : string :=
  "ABCDEFGHIJKLMNOPQRSTUVWXYZabcdefghijklmnopqrstuvwxyz0123456789+/".

Definition symbol (i : Z) : Byte.byte :=
  match String.get (Z.to_nat i) alphabet with
  | Some c => byte_of_ascii c
  | None => Byte.x00
  end.

Definition equals_sign : Byte.byte := byte_of_ascii "=".

Fixpoint encode_Z (l : list Z) : bytes :=
  match l with
  | [] => []
  | [a] =>
      [symbol (a / 4); symbol ((a mod 4) * 16); equals_sign; equals_sign]
  | [a; b] =>
      [symbol (a / 4); symbol ((a mod 4) * 16 + b / 16); symbol ((b mod 16) * 4); equals_sign]
  | a :: b :: c :: rest =>
      symbol (a / 4) :: symbol ((a mod 4) * 16 + b / 16)
        :: symbol ((b mod 16) * 4 + c / 64) :: symbol (c mod 64) :: encode_Z rest
  end.

(** [base64.b64encode(b)] *)
Definition b64encode (b : bytes) : bytes := encode_Z (List.map to_Z b).

End Base64.

(** Bytes in hexadecimal, for the known answers below. *)
Definition hex_of_bytes (b : Bytes.bytes) : string :=
  String.concat EmptyString (List.map (fun x => Py.hex_fixed 2 (Bytes.to_Z x)) b).

(** ** api.py: the client, its environment and the signer *)

(** The credentials held by an [APSystemsApi] instance ([__init__]). *)
Record APSystemsApi : Type := {
  api_app_id : string;
  api_app_secret : string;
  sid : string;
  ecu_id : string
}.

Definition base_url : string := "https://api.apsystemsema.com:9282".

(** One reading of [datetime.now()]: the civil date [strftime] prints and the
    POSIX time, in microseconds, behind [.timestamp()]. *)
Record DateTime : Type := {
  year : Z;
  month : Z;
  day : Z;
  timestamp_us : Z
}.

(** Python's [float]: IEEE 754 binary64, with the operations of the
    standard library's specification of floating-point arithmetic. *)
Module Float64.

Definition prec : Z := 53.
Definition emax : Z := 1024.

(** [float(n)] for an [int]: the nearest float. *)
Definition of_int (n : Z) : spec_float := binary_normalize prec emax n 0 false.

Definition add (x y : spec_float) : spec_float := SFadd prec emax x y.
Definition div (x y : spec_float) : spec_float := SFdiv prec emax x y.

(** [n / d] to the nearest integer, a half to the even neighbour, for
    [0 <= n] and [0 < d]. *)
Definition div_half_even (n d : Z) : Z :=
  let q := n / d in
  let r := n mod d in
  if 2 * r <? d then q
  else if d <? 2 * r then q + 1
  else if Z.even q then q else q + 1.

(** [round(x)] for a finite float: the nearest integer, a half to the even
    neighbour.  (On an infinity or a NaN Python raises; neither arises from
    a clock reading.) *)
Definition round (x : spec_float) : Z :=
  match x with
  | S754_finite negative m e =>
      let magnitude :=
        if 0 <=? e then Zpos m * 2 ^ e else div_half_even (Zpos m) (2 ^ (- e)) in
      if negative then - magnitude else magnitude
  | _ => 0
  end.

End Float64.

(** [int(round(now.timestamp()))].  For a naive [datetime], as [now()]
    returns, [timestamp()] is the float sum of the whole seconds and of
    [microsecond / 1e6], each operation rounded to the nearest float; [round]
    then takes the nearest integer, a half to the even neighbour. *)
Definition round_timestamp (now : DateTime) : Z :=
  let seconds := timestamp_us now / 1000000 in
  let microsecond := timestamp_us now mod 1000000 in
  Float64.round
    (Float64.add (Float64.of_int seconds)
                 (Float64.div (Float64.of_int microsecond) (Float64.of_int 1000000))).

(** [now.strftime("%Y-%m-%d")], as the C library of Linux prints it: the
    month and the day on two digits, the year as it is (a year below 1000 is
    not padded). *)
Definition strftime_Ymd (now : DateTime) : string :=
  Py.str_of_int (year now) ++ "-" ++ Py.zero_pad 2 (month now) ++ "-" ++ Py.zero_pad 2 (day now).

(** [uuid4().hex] for the 128-bit integer of the UUID drawn. *)
Definition uuid_hex (uuid : Z) : string := Py.hex_fixed 32 uuid.

(** [APSystemsApi._hmac_sha256] *)
Definition _hmac_sha256 (key message : string) : string :=
  let _hmac := HMAC.sha256_digest (Bytes.encode key) (Bytes.encode message) in
  Bytes.decode_ascii (Base64.b64encode _hmac).

(** A header mapping, in insertion order. *)
Definition Headers : Type := list (string * string).

Fixpoint header (name : string) (h : Headers) : option string :=
  match h with
  | [] => None
  | (k, v) :: rest => if String.eqb k name then Some v else header name rest
  end.

Definition X_CA_Signature_Method : string := "HmacSHA256".

(** The text that is signed: the argument of [_hmac_sha256] in
    [_request_headers], for the timestamp and nonce drawn there. *)
Definition signing_string (self : APSystemsApi) (request_method requuest_path : string)
    (X_CA_Timestamp X_CA_Nonce : string) : result string :=
  segment <- Py.list_getitem (Py.split "/" requuest_path) (-1) ;;
  Return (Py.join "/"
            [ X_CA_Timestamp;
              X_CA_Nonce;
              api_app_id self;
              segment;
              Py.upper request_method;
              X_CA_Signature_Method ]).

(** [APSystemsApi._request_headers], given what [datetime.now()] and
    [uuid4()] return during the call. *)
Definition _request_headers (self : APSystemsApi) (request_method requuest_path : string)
    (now : DateTime) (uuid : Z) : result Headers :=
  let X_CA_AppId := api_app_id self in
  let X_CA_Timestamp := Py.str_of_int (round_timestamp now) in
  let X_CA_Nonce := uuid_hex uuid in
  message <- signing_string self request_method requuest_path X_CA_Timestamp X_CA_Nonce ;;
  let X_CA_Signature := _hmac_sha256 (api_app_secret self) message in
  Return [ ("content-type", "application/json");
           ("x-ca-appid", X_CA_AppId);
           ("x-ca-timestamp", X_CA_Timestamp);
           ("x-ca-nonce", X_CA_Nonce);
           ("x-ca-signature-method", X_CA_Signature_Method);
           ("x-ca-signature", X_CA_Signature) ].

(** The method in upper case, in the specification's words, for a method
    of ASCII characters: every small letter gives way to the capital at the
    same place of the alphabet, and nothing else changes. *)
Definition small_letters : string := "abcdefghijklmnopqrstuvwxyz".
Definition capital_letters : string := "ABCDEFGHIJKLMNOPQRSTUVWXYZ".

Fixpoint place_of (c : ascii) (alphabet : string) : option nat :=
  match alphabet with
  | EmptyString => None
  | String a rest =>
      if Ascii.eqb a c then Some O
      else match place_of c rest with
           | Some i => Some (S i)
           | None => None
           end
  end.

Definition capital_of (c : ascii) : ascii :=
  match place_of c small_letters with
  | Some i => match String.get i capital_letters with
              | Some capital => capital
              | None => c
              end
  | None => c
  end.

Fixpoint in_upper_case (s : string) : string :=
  match s with
  | EmptyString => EmptyString
  | String c rest => String (capital_of c) (in_upper_case rest)
  end.

(** The final path segment in the specification's words: the text after the
    last ["/"] of the path (all of the path when it has none). *)
Fixpoint text_after_last_slash (path : string) : string :=
  match path with
  | EmptyString => EmptyString
  | String c rest =>
      if Py.contains rest "/" then text_after_last_slash rest
      else if Ascii.eqb c "/" then rest
      else path
  end.

(** ** Decoded JSON and [json.dumps] *)

Module JSON.

(** A Python [float], kept as the text [float.__repr__] gives for it (the
    shortest decimal that reads back as the same float; ["nan"], ["inf"] and
    ["-inf"] for the three special values).  The client never computes with a
    float: it compares one with [0] and prints it. *)
Record float : Type := { repr : string }.

(** What [response.json()] returns: [None], [bool], [int], [float], [str],
    [list], and [dict] with [str] keys in insertion order. *)
#[warnings="-register-all"]
Inductive value : Type :=
| Null
| Bool (b : bool)
| Int (n : Z)
| Float (f : float)
| Str (s : string)
| Array (items : list value)
| Object (members : list (string * value)).

(** [d[key]] on a [dict] *)
Fixpoint dict_getitem (members : list (string * value)) (key : string) : result value :=
  match members with
  | [] => Raise KeyError
  | (k, v) :: rest => if String.eqb k key then Return v else dict_getitem rest key
  end.

(** [key in d] *)
Definition dict_contains (members : list (string * value)) (key : string) : bool :=
  existsb (fun kv => String.eqb (fst kv) key) members.

(** [v[key]] for a [str] key: only a [dict] can be indexed by one. *)
Definition getitem (v : value) (key : string) : result value :=
  match v with
  | Object members => dict_getitem members key
  | _ => Raise TypeError
  end.

(** [v[i]] for an [int] index: a list or a string is indexed by position, a
    [dict] (whose keys are strings) has no such key, anything else cannot be
    subscripted. *)
Definition getitem_int (v : value) (i : Z) : result value :=
  match v with
  | Array items => Py.list_getitem items i
  | Str s =>
      c <- Py.list_getitem (list_ascii_of_string s) i ;;
      Return (Str (String c EmptyString))
  | Object _ => Raise KeyError
  | _ => Raise TypeError
  end.

(** [v != 0] *)
Definition ne_zero (v : value) : bool :=
  match v with
  | Bool b => b
  | Int n => negb (n =? 0)
  | Float f => negb (String.eqb (repr f) "0.0" || String.eqb (repr f) "-0.0")
  | _ => true
  end.

Definition quote : string := String (ascii_of_nat 34) EmptyString.
Definition backslash : string := String (ascii_of_nat 92) EmptyString.
Definition newline : string := String (ascii_of_nat 10) EmptyString.

(** One character of [json.encoder.encode_basestring_ascii]: the printable
    ASCII characters stand for themselves except the quote and the backslash;
    the rest is escaped, by a short escape or as [\u00xx]. *)
Definition escape_char (c : ascii) : string :=
  let n := Z.of_N (N_of_ascii c) in
  if n =? 34 then backslash ++ quote
  else if n =? 92 then backslash ++ backslash
  else if n =? 10 then backslash ++ "n"
  else if n =? 13 then backslash ++ "r"
  else if n =? 9 then backslash ++ "t"
  else if n =? 8 then backslash ++ "b"
  else if n =? 12 then backslash ++ "f"
  else if (32 <=? n) && (n <=? 126) then String c EmptyString
  else backslash ++ "u" ++ Py.hex_fixed 4 n.

Fixpoint escape (s : string) : string :=
  match s with
  | EmptyString => EmptyString
  | String c rest => escape_char c ++ escape rest
  end.

Definition encode_basestring_ascii (s : string) : string :=
  quote ++ escape s ++ quote.

(** [json.encoder.floatstr] *)
Definition floatstr (f : float) : string :=
  if String.eqb (repr f) "nan" then "NaN"
  else if String.eqb (repr f) "inf" then "Infinity"
  else if String.eqb (repr f) "-inf" then "-Infinity"
  else repr f.

Fixpoint spaces (n : nat) : string :=
  match n with
  | O => EmptyString
  | S k => String " " (spaces k)
  end.

Section Dumps.

Variable indent : nat.

Definition newline_indent (level : nat) : string :=
  newline ++ spaces (indent * level).

(** [json.dumps(v, indent=indent)] at nesting depth [level]: an empty list
    or dict is printed closed; otherwise every item goes on a line of its own,
    items are separated by [","] and a key from its value by [": "]. *)
Fixpoint dumps_at (level : nat) (v : value) : string :=
  match v with
  | Null => "null"
  | Bool true => "true"
  | Bool false => "false"
  | Int n => Py.str_of_int n
  | Float f => floatstr f
  | Str s => encode_basestring_ascii s
  | Array [] => "[]"
  | Array (first :: others) =>
      "[" ++ newline_indent (S level) ++ dumps_at (S level) first
      ++ (fix rest (l : list value) : string :=
            match l with
            | [] => EmptyString
            | x :: l' => "," ++ newline_indent (S level) ++ dumps_at (S level) x ++ rest l'
            end) others
      ++ newline_indent level ++ "]"
  | Object [] => "{}"
  | Object ((key, first) :: others) =>
      "{" ++ newline_indent (S level)
      ++ encode_basestring_ascii key ++ ": " ++ dumps_at (S level) first
      ++ (fix rest (l : list (string * value)) : string :=
            match l with
            | [] => EmptyString
            | (k, x) :: l' =>
                "," ++ newline_indent (S level)
                ++ encode_basestring_ascii k ++ ": " ++ dumps_at (S level) x ++ rest l'
            end) others
      ++ newline_indent level ++ "}"
  end.

End Dumps.

Definition dumps (indent : nat) (v : value) : string := dumps_at indent 0 v.

End JSON.

(** ** api.py: the result records *)

(** Calling a dataclass with [**kwargs]: a keyword that names no field is
    refused, and so is a field left without a value (no field of the two
    records has a default).  Both are a [TypeError]. *)
Definition reject_unexpected (fields : list string) (kwargs : list (string * JSON.value))
  : result unit :=
  if forallb (fun kv => existsb (String.eqb (fst kv)) fields) kwargs
  then Return tt else Raise TypeError.

Definition keyword_argument (kwargs : list (string * JSON.value)) (field : string)
  : result JSON.value :=
  match JSON.dict_getitem kwargs field with
  | Return v => Return v
  | Raise _ => Raise TypeError
  end.

(** [**v]: only a mapping can be unpacked into keywords. *)
Definition unpack_kwargs (v : JSON.value) : result (list (string * JSON.value)) :=
  match v with
  | JSON.Object members => Return members
  | _ => Raise TypeError
  end.

(** [APSystemsApi.SystemSummaryData].  The field annotations are not checked
    when the record is built, so a field holds whatever value the response
    carried. *)
Module SystemSummaryData.

Record t : Type := {
  month : JSON.value;
  year : JSON.value;
  today : JSON.value;
  lifetime : JSON.value
}.

Definition fields : list string := ["month"; "year"; "today"; "lifetime"].

(** The constructor call, [v] unpacked into keyword arguments. *)
Definition new (v : JSON.value) : result t :=
  kwargs <- unpack_kwargs v ;;
  _ <- reject_unexpected fields kwargs ;;
  month <- keyword_argument kwargs "month" ;;
  year <- keyword_argument kwargs "year" ;;
  today <- keyword_argument kwargs "today" ;;
  lifetime <- keyword_argument kwargs "lifetime" ;;
  Return {| month := month; year := year; today := today; lifetime := lifetime |}.

End SystemSummaryData.

(** [APSystemsApi.ECUMinutelyEnergyData] *)
Module ECUMinutelyEnergyData.

Record t : Type := {
  today : JSON.value;
  time : JSON.value;
  power : JSON.value;
  energy : JSON.value
}.

Definition fields : list string := ["today"; "time"; "power"; "energy"].

(** The constructor call, [v] unpacked into keyword arguments. *)
Definition new (v : JSON.value) : result t :=
  kwargs <- unpack_kwargs v ;;
  _ <- reject_unexpected fields kwargs ;;
  today <- keyword_argument kwargs "today" ;;
  time <- keyword_argument kwargs "time" ;;
  power <- keyword_argument kwargs "power" ;;
  energy <- keyword_argument kwargs "energy" ;;
  Return {| today := today; time := time; power := power; energy := energy |}.

(** The property [latest_power]: [self.power[-1]] *)
Definition latest_power (self : t) : result JSON.value :=
  JSON.getitem_int (power self) (-1).

(** The property [latest_energy]: [self.energy[-1]] *)
Definition latest_energy (self : t) : result JSON.value :=
  JSON.getitem_int (energy self) (-1).

(** The data-model invariant of the specification: the three sequences are
    lists of one length, and the timestamps, compared as text, increase. *)
Fixpoint increasing (times : list JSON.value) : bool :=
  match times with
  | JSON.Str a :: (JSON.Str b :: _) as rest => String.ltb a b && increasing rest
  | [JSON.Str _] => true
  | [] => true
  | _ => false
  end.

Definition invariant (self : t) : bool :=
  match time self, power self, energy self with
  | JSON.Array times, JSON.Array powers, JSON.Array energies =>
      (List.length times =? List.length powers)%nat
      && (List.length powers =? List.length energies)%nat
      && increasing times
  | _, _, _ => false
  end.

End ECUMinutelyEnergyData.

(** ** api.py: the HTTP exchange and the two fetch operations *)

Record Request : Type := {
  url : string;
  params : list (string * string);
  headers : Headers
}.

(** A [requests.Response]: the status, the body as received ([.text]) and
    what [.json()] decodes it to ([None] when the body is not JSON). *)
Record Response : Type := {
  status_code : Z;
  text : string;
  json : option JSON.value
}.

(** What [requests.get] does: it returns a response or raises one of the
    [RequestException] family. *)
Inductive Exchange : Type :=
| Failed
| Responded (response : Response).

(** What the environment supplies during one call of a fetch operation:
    the clock, the UUID generator, the server, and [urllib.parse.urljoin],
    which the client calls on the base URL and the request path.  What
    [urljoin] makes of a path (dot segments, queries, fragments) is the
    library's matter and is left open. *)
Record Env : Type := {
  datetime_now : nat -> DateTime;   (* the successive readings of the clock *)
  uuid4 : Z;                        (* the UUID drawn, as a 128-bit integer *)
  urljoin : string -> string -> string;
  server : Request -> Exchange
}.

Definition requests_get (env : Env) (request : Request) : result Response :=
  match server env request with
  | Failed => Raise RequestException
  | Responded response => Return response
  end.

(** [response.raise_for_status()] *)
Definition raise_for_status (response : Response) : result unit :=
  if (400 <=? status_code response) && (status_code response <? 600)
  then Raise (HTTPError (status_code response))
  else Return tt.

(** [response.json()] *)
Definition response_json (response : Response) : result JSON.value :=
  match json response with
  | Some v => Return v
  | None => Raise JSONDecodeError
  end.

(** The envelope check shared by the two operations: [data["code"] != 0]
    raises, with the decoded body printed into the message. *)
Definition check_code (data : JSON.value) : result unit :=
  code <- JSON.getitem data "code" ;;
  if JSON.ne_zero code
  then Raise (ResponseException ("Non zero response code: " ++ JSON.dumps 4 data))
  else Return tt.

(** The request [system_summary] sends: the path for the site, the URL and
    the signed headers. *)
Definition summary_request (self : APSystemsApi) (env : Env) : result Request :=
  let request_path := "/user/api/v2/systems/summary/" ++ sid self in
  let url := urljoin env base_url request_path in
  headers <- _request_headers self "GET" request_path (datetime_now env 0%nat) (uuid4 env) ;;
  Return {| url := url; params := []; headers := headers |}.

(** [APSystemsApi.system_summary] *)
Definition system_summary (self : APSystemsApi) (env : Env) : result SystemSummaryData.t :=
  request <- summary_request self env ;;
  response <- requests_get env request ;;
  _ <- raise_for_status response ;;
  data <- response_json response ;;
  _ <- check_code data ;;
  payload <- JSON.getitem data "data" ;;
  SystemSummaryData.new payload.

(** The request [ecu_minutely_energy] sends: the path for the site and the
    device, the URL, the signed headers, and the query for today's minutely
    samples (the clock is read a second time for the date). *)
Definition energy_request (self : APSystemsApi) (env : Env) : result Request :=
  let request_path :=
    "/user/api/v2/systems/" ++ sid self ++ "/devices/ecu/energy/" ++ ecu_id self in
  let url := urljoin env base_url request_path in
  headers <- _request_headers self "GET" request_path (datetime_now env 0%nat) (uuid4 env) ;;
  Return {| url := url;
            params := [ ("energy_level", "minutely");
                        ("date_range", strftime_Ymd (datetime_now env 1%nat)) ];
            headers := headers |}.

(** [APSystemsApi.ecu_minutely_energy] *)
Definition ecu_minutely_energy (self : APSystemsApi) (env : Env)
  : result ECUMinutelyEnergyData.t :=
  request <- energy_request self env ;;
  response <- requests_get env request ;;
  _ <- raise_for_status response ;;
  data <- response_json response ;;
  _ <- check_code data ;;
  payload <- JSON.getitem data "data" ;;
  ECUMinutelyEnergyData.new payload.

(** The call that sends [request] gets [response] back. *)
Definition receives (request : result Request) (env : Env) (response : Response) : Prop :=
  exists sent : Request, request = Return sent /\ server env sent = Responded response.

(** ** sensor.py: configuration, availability and update *)

Definition STATE_UNAVAILABLE : string := "unavailable".   (* homeassistant.const *)

(** A scalar of the YAML configuration, and [cv.string] of the host platform:
    a string is kept and a boolean is printed the way [str] prints it (YAML
    reads a bare [off], [no] or [false] as the boolean false). *)
Inductive Scalar : Type :=
| YamlStr (s : string)
| YamlBool (b : bool).

Definition cv_string (v : Scalar) : string :=
  match v with
  | YamlStr s => s
  | YamlBool true => "True"
  | YamlBool false => "False"
  end.

(** The [sunset] entry of [PLATFORM_SCHEMA], as [setup_platform] reads it
    back from the validated configuration:
    [vol.Optional(CUSTOM_CONF_SUNSET, default="off"): cv.string]. *)
Definition CUSTOM_CONF_SUNSET_default : string := "off".

Definition config_sunset (given : option Scalar) : string :=
  match given with
  | Some v => cv_string v
  | None => cv_string (YamlStr CUSTOM_CONF_SUNSET_default)
  end.

(** The attributes of an [APSystemsSensor] that [available] and [update] use
    ([__init__]). *)
Record APSystemsSensor : Type := {
  _state : option string;
  _name : string;
  _sunset : string;
  _api : APSystemsApi
}.

(** The sensor [setup_platform] builds for a metric. *)
Definition new_sensor (sensor_name : string) (sunset : option Scalar) (api : APSystemsApi)
  : APSystemsSensor :=
  {| _state := None; _name := sensor_name; _sunset := config_sunset sunset; _api := api |}.

(** A time-zone aware [datetime]: the instant, in microseconds since the
    epoch, and the offset of its time zone from UTC at that instant. *)
Record datetime : Type := {
  instant : Z;
  utcoffset : Z
}.

Definition microseconds_per_day : Z := 86400000000.

(** [dt.date()]: the calendar day of the local reading, as a day number. *)
Definition date (dt : datetime) : Z := (instant dt + utcoffset dt) / microseconds_per_day.

(** [a <= b] on aware datetimes compares the instants. *)
Definition datetime_le (a b : datetime) : bool := instant a <=? instant b.

Inductive SunEvent : Type := SUN_EVENT_SUNRISE | SUN_EVENT_SUNSET.

(** What the host platform supplies to [available]: the clock
    ([dt_utcnow]), the configured time zone ([DEFAULT_TIME_ZONE], as the
    offset in force at an instant) and the astral computation for the
    configured location, which gives no instant on a day the event does not
    occur. *)
Record Hass : Type := {
  dt_utcnow : Z;
  local_offset : Z -> Z;
  get_astral_event_date : SunEvent -> Z -> option datetime
}.

(** [as_local(dt)]: the same instant, read in the configured zone.  On
    [None] the attribute access inside fails. *)
Definition as_local (hass : Hass) (dt : datetime) : datetime :=
  {| instant := instant dt; utcoffset := local_offset hass (instant dt) |}.

Definition as_local_opt (hass : Hass) (dt : option datetime) : result datetime :=
  match dt with
  | Some d => Return (as_local hass d)
  | None => Raise AttributeError
  end.

(** [APSystemsSensor.find_start_time] *)
Definition find_start_time (hass : Hass) (now : datetime) : option datetime :=
  get_astral_event_date hass SUN_EVENT_SUNRISE (date now).

(** [APSystemsSensor.find_stop_time] *)
Definition find_stop_time (hass : Hass) (now : datetime) : option datetime :=
  get_astral_event_date hass SUN_EVENT_SUNSET (date now).

(** The property [APSystemsSensor.available].  A property is read without
    arguments, so [utc_now] is always taken from the clock.  The chained
    comparison reads [as_local(stop_time)] only when the first comparison
    holds; the debug message of either branch reads both. *)
Definition available (self : APSystemsSensor) (hass : Hass) : result bool :=
  if String.eqb (_sunset self) "False" then Return true
  else
    let utc_now := {| instant := dt_utcnow hass; utcoffset := 0 |} in
    let now := as_local hass utc_now in
    let start_time := find_start_time hass now in
    let stop_time := find_stop_time hass now in
    start_local <- as_local_opt hass start_time ;;
    if datetime_le start_local now then
      stop_local <- as_local_opt hass stop_time ;;
      if datetime_le now stop_local then Return true else Return false
    else
      _ <- as_local_opt hass stop_time ;;
      Return false.

(** [APSystemsSensor.update]: the sensor after the call. *)
Definition update (self : APSystemsSensor) (env : Env) : result APSystemsSensor :=
  let set_state (s : string) :=
    {| _state := Some s; _name := _name self; _sunset := _sunset self; _api := _api self |} in
  try_except_Exception
    (_ <- system_summary (_api self) env ;;
     Return (set_state "TEST"))
    (fun e => Return (set_state STATE_UNAVAILABLE)).

(** ** sensor.py: the metrics and the platform set-up *)

(** [ApsMetadata] *)
Module ApsMetadata.

Record t : Type := {
  json_key : string;
  icon : string;
  unit : string;
  state_class : option string
}.

End ApsMetadata.

Definition SENSOR_ENERGY_TODAY : string := "energy_today".
Definition SENSOR_ENERGY_LATEST : string := "energy_latest".
Definition SENSOR_POWER_LATEST : string := "power_latest".

Definition KILO_WATT_HOUR : string := "kWh".   (* homeassistant.const.UnitOfEnergy *)
Definition WATT : string := "W".               (* homeassistant.const.UnitOfPower *)

(** [SENSORS], in the order of the dictionary. *)
Definition SENSORS : list (string * ApsMetadata.t) :=
  [ (SENSOR_ENERGY_TODAY,
     {| ApsMetadata.json_key := "total";
        ApsMetadata.icon := "mdi:solar-power";
        ApsMetadata.unit := KILO_WATT_HOUR;
        ApsMetadata.state_class := Some "total_increasing" |});
    (SENSOR_ENERGY_LATEST,
     {| ApsMetadata.json_key := "energy";
        ApsMetadata.icon := "mdi:solar-power";
        ApsMetadata.unit := KILO_WATT_HOUR;
        ApsMetadata.state_class := None |});
    (SENSOR_POWER_LATEST,
     {| ApsMetadata.json_key := "power";
        ApsMetadata.icon := "mdi:solar-power";
        ApsMetadata.unit := WATT;
        ApsMetadata.state_class := None |}) ].

(** The configuration [setup_platform] is given.  [PLATFORM_SCHEMA] requires
    the four credentials and turns each into a string; [sunset] is optional
    and [name] is no entry of the schema, so [config.get] may find none. *)
Record Config : Type := {
  conf_api_app_id : string;
  conf_api_app_secret : string;
  conf_sid : string;
  conf_ecu_id : string;
  conf_sunset : option Scalar;
  conf_name : option string
}.

(** A sensor entity: the attributes above and the metric's metadata. *)
Record Entity : Type := {
  sensor : APSystemsSensor;
  _metadata : ApsMetadata.t
}.

(** The properties [name], [state], [unit_of_measurement], [icon] and
    [state_class]. *)
Definition name (e : Entity) : string := _name (sensor e).
Definition state (e : Entity) : option string := _state (sensor e).
Definition unit_of_measurement (e : Entity) : string := ApsMetadata.unit (_metadata e).
Definition icon (e : Entity) : string := ApsMetadata.icon (_metadata e).
Definition state_class (e : Entity) : option string := ApsMetadata.state_class (_metadata e).

(** The loop of [setup_platform]: one sensor per metric, named after the
    configured name in lower case; a configuration without a name makes
    [.lower()] fail on [None]. *)
Fixpoint build_sensors (config : Config) (api : APSystemsApi)
    (metrics : list (string * ApsMetadata.t)) : result (list Entity) :=
  match metrics with
  | [] => Return []
  | (type, metadata) :: rest =>
      lowered <- match conf_name config with
                 | Some n => Return (Py.lower n)
                 | None => Raise AttributeError
                 end ;;
      let sensor_name := lowered ++ "_" ++ type in
      let entity :=
        {| sensor := new_sensor sensor_name (conf_sunset config) api;
           _metadata := metadata |} in
      others <- build_sensors config api rest ;;
      Return (entity :: others)
  end.

(** [setup_platform]: the entities handed to [add_entities]. *)
Definition setup_platform (config : Config) : result (list Entity) :=
  let api :=
    {| api_app_id := conf_api_app_id config;
       api_app_secret := conf_api_app_secret config;
       sid := conf_sid config;
       ecu_id := conf_ecu_id config |} in
  build_sensors config api SENSORS.

(** ** Sample inputs *)

Definition sample_api : APSystemsApi :=
  {| api_app_id := "app"; api_app_secret := "secret"; sid := "SID1"; ecu_id := "ECU1" |}.

Definition sample_now : DateTime :=
  {| year := 2023; month := 11; day := 14; timestamp_us := 1699999999500000 |}.

Definition sample_uuid : Z := 0x0123456789abcdef0123456789abcdef.

(** An environment whose server answers every request with [response];
    on the plain paths of the samples [urljoin] appends the path to the
    base. *)
Definition sample_env (response : Response) : Env :=
  {| datetime_now := fun _ => sample_now;
     uuid4 := sample_uuid;
     urljoin := fun base path => base ++ path;
     server := fun _ => Responded response |}.

(** An environment whose connection fails. *)
Definition offline_env : Env :=
  {| datetime_now := fun _ => sample_now;
     uuid4 := sample_uuid;
     urljoin := fun base path => base ++ path;
     server := fun _ => Failed |}.

(** A successful response whose body is the JSON text of [body]. *)
Definition json_response (body : JSON.value) : Response :=
  {| status_code := 200; text := JSON.dumps 4 body; json := Some body |}.

(** The rejection of the specification's scenario, as it comes over the
    wire, compact; the same with a blank after each separator; and what
    both decode to. *)
Definition rejected_text : string :=
  "{" ++ JSON.quote ++ "code" ++ JSON.quote ++ ":1,"
  ++ JSON.quote ++ "data" ++ JSON.quote ++ ":{}}".

Definition rejected_text_spaced : string :=
  "{" ++ JSON.quote ++ "code" ++ JSON.quote ++ ": 1, "
  ++ JSON.quote ++ "data" ++ JSON.quote ++ ": {}}".

Definition rejected_body : JSON.value :=
  JSON.Object [("code", JSON.Int 1); ("data", JSON.Object [])].

(** The message [check_code] builds for [rejected_body]. *)
Definition rejected_message : string :=
  "Non zero response code: {" ++ JSON.newline
  ++ "    " ++ JSON.quote ++ "code" ++ JSON.quote ++ ": 1," ++ JSON.newline
  ++ "    " ++ JSON.quote ++ "data" ++ JSON.quote ++ ": {}" ++ JSON.newline
  ++ "}".

(** A success envelope around [payload]. *)
Definition success_body (payload : JSON.value) : JSON.value :=
  JSON.Object [("code", JSON.Int 0); ("data", payload)].

(** A minutely payload whose sequences have two, one and no items. *)
Definition ragged_payload : JSON.value :=
  JSON.Object [ ("today", JSON.Float {| JSON.repr := "1.5" |});
                ("time", JSON.Array [JSON.Str "10:00"; JSON.Str "10:05"]);
                ("power", JSON.Array [JSON.Int 5]);
                ("energy", JSON.Array []) ].

(** A minutely payload with two samples. *)
Definition regular_payload : JSON.value :=
  JSON.Object [ ("today", JSON.Float {| JSON.repr := "1.5" |});
                ("time", JSON.Array [JSON.Str "10:00"; JSON.Str "10:05"]);
                ("power", JSON.Array [JSON.Int 5; JSON.Int 7]);
                ("energy", JSON.Array [JSON.Float {| JSON.repr := "0.1" |};
                                       JSON.Float {| JSON.repr := "0.2" |}]) ].

(** The summary payload of the specification's scenario. *)
Definition summary_payload : JSON.value :=
  JSON.Object [ ("month", JSON.Float {| JSON.repr := "12.3" |});
                ("year", JSON.Float {| JSON.repr := "456.7" |});
                ("today", JSON.Float {| JSON.repr := "1.2" |});
                ("lifetime", JSON.Float {| JSON.repr := "999.9" |}) ].

(** A host whose zone is seven hours behind UTC, where the sun rises at 06:00
    and sets at 20:00 local time every day, read at [minute] minutes past
    local midnight of day 19675. *)
Definition sample_offset : Z := -7 * 3600 * 1000000.

Definition local_time (day minute : Z) : Z :=
  day * microseconds_per_day + minute * 60 * 1000000 - sample_offset.

Definition sample_hass (minute : Z) : Hass :=
  {| dt_utcnow := local_time 19675 minute;
     local_offset := fun _ => sample_offset;
     get_astral_event_date := fun event day =>
       match event with
       | SUN_EVENT_SUNRISE => Some {| instant := local_time day (6 * 60); utcoffset := 0 |}
       | SUN_EVENT_SUNSET => Some {| instant := local_time day (20 * 60); utcoffset := 0 |}
       end |}.

Definition sample_sensor (sunset : option Scalar) : APSystemsSensor :=
  new_sensor "solar_energy_today" sunset sample_api.

(** * Properties *)

(** ** Known answers

    The texts, digests and encodings Python gives on the same inputs. *)

Example sha256_abc :
  hex_of_bytes (SHA256.digest (Bytes.encode "abc"))
  = "ba7816bf8f01cfea414140de5dae2223b00361a396177a9cb410ff61f20015ad".
Proof. vm_compute. reflexivity. Qed.

Example sha256_empty :
  hex_of_bytes (SHA256.digest [])
  = "e3b0c44298fc1c149afbf4c8996fb92427ae41e4649b934ca495991b7852b855".
Proof. vm_compute. reflexivity. Qed.

Example sha256_two_blocks :
  hex_of_bytes (SHA256.digest
    (Bytes.encode "abcdbcdecdefdefgefghfghighijhijkijkljklmklmnlmnomnopnopq"))
  = "248d6a61d20638b8e5c026930c3e6039a33ce45964ff2167f6ecedd419db06c1".
Proof. vm_compute. reflexivity. Qed.

Example hmac_sha256_fox :
  hex_of_bytes (HMAC.sha256_digest (Bytes.encode "key")
    (Bytes.encode "The quick brown fox jumps over the lazy dog"))
  = "f7bc83f430538424b13298e6aa6fb143ef4d59a14946175997479dbc2d1a3cd8".
Proof. vm_compute. reflexivity. Qed.

Example b64encode_padding :
  List.map (fun s => Bytes.decode_ascii (Base64.b64encode (Bytes.encode s))) ["a"; "ab"; "abc"]
  = ["YQ=="; "YWI="; "YWJj"].
Proof. vm_compute. reflexivity. Qed.

Example split_examples :
  Py.split "/" "/a/b" = [EmptyString; "a"; "b"]
  /\ Py.split "/" EmptyString = [EmptyString]
  /\ Py.split "/" "a/" = ["a"; EmptyString].
Proof. repeat split. Qed.

Example signature_known_answer :
  _hmac_sha256 "secret" "1700000000/0123456789abcdef0123456789abcdef/app/SID1/GET/HmacSHA256"
  = "3mUon2zIPN79TXYbh1l5TCh9eDkp7ceqOOk38IfhL74=".
Proof. vm_compute. reflexivity. Qed.

Example request_headers_example :
  _request_headers
    {| api_app_id := "app"; api_app_secret := "secret"; sid := "SID1"; ecu_id := "E1" |}
    "get" "/user/api/v2/systems/summary/SID1"
    {| year := 2023; month := 11; day := 14; timestamp_us := 1699999999500000 |}
    0x0123456789abcdef0123456789abcdef
  = Return [ ("content-type", "application/json");
             ("x-ca-appid", "app");
             ("x-ca-timestamp", "1700000000");
             ("x-ca-nonce", "0123456789abcdef0123456789abcdef");
             ("x-ca-signature-method", "HmacSHA256");
             ("x-ca-signature", "3mUon2zIPN79TXYbh1l5TCh9eDkp7ceqOOk38IfhL74=") ].
Proof. vm_compute. reflexivity. Qed.

Example dumps_envelope :
  JSON.dumps 4 (JSON.Object [("code", JSON.Int 1); ("data", JSON.Object [])])
  = "{" ++ JSON.newline
    ++ "    " ++ JSON.quote ++ "code" ++ JSON.quote ++ ": 1," ++ JSON.newline
    ++ "    " ++ JSON.quote ++ "data" ++ JSON.quote ++ ": {}" ++ JSON.newline
    ++ "}".
Proof. vm_compute. reflexivity. Qed.

Example sha256_constants :
  List.length SHA256.K = 64%nat /\ List.nth 0 SHA256.K 0 = 0x428a2f98
  /\ List.nth 63 SHA256.K 0 = 0xc67178f2 /\ List.nth 0 SHA256.H0 0 = 0x6a09e667.
Proof. repeat split. Qed.

Example hmac_long_key :
  _hmac_sha256 "kkkkkkkkkkkkkkkkkkkkkkkkkkkkkkkkkkkkkkkkkkkkkkkkkkkkkkkkkkkkkkkkkkkkkk"
               "1700000000/0123456789abcdef0123456789abcdef/app/SID1/GET/HmacSHA256"
  = "jJ2/auEQcdY7QQZ9M14FJD5rjcx7+xXxnYTQaeaGJfY=".
Proof. vm_compute. reflexivity. Qed.

Example encode_two_bytes :
  hex_of_bytes (Bytes.encode (String (ascii_of_nat 233) "a")) = "c3a961".
Proof. vm_compute. reflexivity. Qed.

Example str_of_int_examples :
  Py.str_of_int 0 = "0" /\ Py.str_of_int 1700000000 = "1700000000" /\ Py.str_of_int (-12) = "-12".
Proof. repeat split. Qed.

Example round_timestamp_ties :
  List.map (fun us => round_timestamp {| year := 1970; month := 1; day := 1; timestamp_us := us |})
           [499999; 500000; 500001; 1500000; 2500000]
  = [0; 0; 1; 2; 2].
Proof. vm_compute. reflexivity. Qed.

(** Readings of today, of the far future (where the float no longer tells
    the microseconds apart), before 1970, and beyond the integers a float
    holds exactly. *)
Example round_timestamp_known_answers :
  List.map (fun us => round_timestamp {| year := 1970; month := 1; day := 1; timestamp_us := us |})
           [ 1699999999500000; 1700000000499999; 17179869184500001; 17179869183500001;
             -500000; -1500000; -499999; -1; -2500001; 34359738368500002;
             9007199254740993000000; 4503599627370496500000 ]
  = [ 1700000000; 1700000000; 17179869184; 17179869184;
      0; -2; 0; 0; -3; 34359738368;
      9007199254740992; 4503599627370496 ].
Proof. vm_compute. reflexivity. Qed.

Example upper_lower_examples :
  Py.upper "get" = "GET"
  /\ Py.upper (String (ascii_of_nat 233) "t" ++ String (ascii_of_nat 233) EmptyString)
     = String (ascii_of_nat 201) "T" ++ String (ascii_of_nat 201) EmptyString
  /\ Py.upper ("stra" ++ String (ascii_of_nat 223) "e") = "STRASSE"
  /\ Py.lower (String (ascii_of_nat 201) "COLE") = String (ascii_of_nat 233) "cole"
  /\ Py.lower (String (ascii_of_nat 215) "A") = String (ascii_of_nat 215) "a".
Proof. vm_compute. repeat split. Qed.

Example strftime_early_year :
  strftime_Ymd {| year := 999; month := 1; day := 2; timestamp_us := 0 |} = "999-01-02".
Proof. reflexivity. Qed.

Example strftime_example : strftime_Ymd {| year := 2024; month := 3; day := 9; timestamp_us := 0 |} = "2024-03-09".
Proof. reflexivity. Qed.

(** The success scenario of the specification. *)
Example system_summary_scenario :
  system_summary sample_api (sample_env (json_response (success_body summary_payload)))
  = Return {| SystemSummaryData.month := JSON.Float {| JSON.repr := "12.3" |};
              SystemSummaryData.year := JSON.Float {| JSON.repr := "456.7" |};
              SystemSummaryData.today := JSON.Float {| JSON.repr := "1.2" |};
              SystemSummaryData.lifetime := JSON.Float {| JSON.repr := "999.9" |} |}.
Proof. vm_compute. reflexivity. Qed.

(** With the configuration left at its default the window is on. *)
Example default_configuration_keeps_the_window :
  _sunset (sample_sensor None) = "off"
  /\ available (sample_sensor None) (sample_hass 0) = Return false.
Proof. split; reflexivity. Qed.

(** ** Python lists and strings *)

Lemma list_getitem_last {A : Type} (l : list A) (d : A) :
  l <> [] -> Py.list_getitem l (-1) = Return (List.last l d).
Proof.
  intros Hne. unfold Py.list_getitem.
  assert (Hlen : (1 <= List.length l)%nat) by (destruct l; [congruence | simpl; lia]).
  replace (-1 <? 0) with true by reflexivity.
  replace ((-1 + Z.of_nat (List.length l) <? 0)
           || (Z.of_nat (List.length l) <=? -1 + Z.of_nat (List.length l))) with false
    by (symmetry; apply orb_false_iff; split; [apply Z.ltb_ge | apply Z.leb_gt]; lia).
  replace (Z.to_nat (-1 + Z.of_nat (List.length l))) with (List.length l - 1)%nat by lia.
  clear Hlen. induction l as [| x l IH]; [congruence |].
  destruct l as [| y l'].
  - reflexivity.
  - change (List.last (x :: y :: l') d) with (List.last (y :: l') d).
    rewrite <- IH by congruence. simpl. rewrite Nat.sub_0_r. reflexivity.
Qed.

Lemma list_getitem_empty {A : Type} (i : Z) :
  Py.list_getitem (@nil A) i = Raise IndexError.
Proof.
  unfold Py.list_getitem. simpl.
  destruct (i <? 0) eqn:Hi.
  - rewrite Z.add_0_r, Hi. reflexivity.
  - replace (0 <=? i) with true by (symmetry; apply Z.leb_le; apply Z.ltb_ge in Hi; lia).
    rewrite orb_true_r. reflexivity.
Qed.

Lemma contains_slash_cons (c : ascii) (s : string) :
  Py.contains (String c s) "/" = Ascii.eqb c "/" || Py.contains s "/".
Proof.
  simpl. destruct s; now rewrite andb_true_r.
Qed.

Lemma split_not_nil (sep : ascii) (s : string) : Py.split sep s <> [].
Proof.
  destruct s as [| c s]; simpl; [discriminate |].
  destruct (Ascii.eqb c sep); [discriminate |].
  destruct (Py.split sep s); discriminate.
Qed.

Lemma split_without_slash (s : string) :
  Py.contains s "/" = false -> Py.split "/" s = [s].
Proof.
  induction s as [| c s IH]; intros H; [reflexivity |].
  rewrite contains_slash_cons in H. apply orb_false_iff in H as [Hc Hs].
  simpl. rewrite Hc, (IH Hs). reflexivity.
Qed.

Lemma split_with_slash (s : string) :
  Py.contains s "/" = true -> exists a b rest, Py.split "/" s = a :: b :: rest.
Proof.
  induction s as [| c s IH]; intros H; [discriminate |].
  rewrite contains_slash_cons in H. simpl.
  destruct (Ascii.eqb c "/") eqn:Hc.
  - pose proof (split_not_nil "/" s) as Hne.
    destruct (Py.split "/" s) as [| b rest]; [congruence |]. eauto.
  - simpl in H. destruct (IH H) as (a & b & rest & ->). eauto.
Qed.

Lemma text_after_last_slash_without_slash (s : string) :
  Py.contains s "/" = false -> text_after_last_slash s = s.
Proof.
  destruct s as [| c s]; intros H; [reflexivity |].
  rewrite contains_slash_cons in H. apply orb_false_iff in H as [Hc Hs].
  simpl. rewrite Hs, Hc. reflexivity.
Qed.

(** The last item of [path.split("/")] is the text after the last slash. *)
Lemma last_of_split (path : string) :
  List.last (Py.split "/" path) EmptyString = text_after_last_slash path.
Proof.
  induction path as [| c s IH]; [reflexivity |].
  cbn [text_after_last_slash Py.split].
  destruct (Py.contains s "/") eqn:Hs.
  - destruct (split_with_slash s Hs) as (a & b & rest & E).
    rewrite E in IH |- *. rewrite <- IH.
    destruct (Ascii.eqb c "/"); reflexivity.
  - rewrite (split_without_slash s Hs).
    destruct (Ascii.eqb c "/"); reflexivity.
Qed.

Lemma contains_slash_append (before after : string) :
  Py.contains (before ++ "/" ++ after) "/" = true.
Proof.
  induction before as [| c before IH].
  - cbn [append]. rewrite contains_slash_cons. reflexivity.
  - change (String c before ++ "/" ++ after) with (String c (before ++ "/" ++ after)).
    rewrite contains_slash_cons, IH. apply orb_true_r.
Qed.

(** Nothing else is the text after the last slash: a text without a slash
    that follows a slash at the end of the path is the one computed. *)
Lemma text_after_last_slash_unique (before segment : string) :
  Py.contains segment "/" = false ->
  text_after_last_slash (before ++ "/" ++ segment) = segment.
Proof.
  intros Hseg. induction before as [| c before IH].
  - cbn [append text_after_last_slash]. rewrite Hseg. reflexivity.
  - change (String c before ++ "/" ++ segment) with (String c (before ++ "/" ++ segment)).
    cbn [text_after_last_slash]. rewrite contains_slash_append. exact IH.
Qed.

Lemma final_segment (path : string) :
  Py.list_getitem (Py.split "/" path) (-1) = Return (text_after_last_slash path).
Proof.
  rewrite (list_getitem_last _ EmptyString (split_not_nil "/" path)).
  now rewrite last_of_split.
Qed.

(** [text_after_last_slash] is what its name says: it has no slash, and the
    path is either that text alone or some prefix, a slash, and that text. *)
Lemma text_after_last_slash_spec (path : string) :
  Py.contains (text_after_last_slash path) "/" = false
  /\ (path = text_after_last_slash path
      \/ exists before, path = before ++ "/" ++ text_after_last_slash path).
Proof.
  induction path as [| c s [IHa IHb]]; [split; [reflexivity | now left] |].
  cbn [text_after_last_slash].
  destruct (Py.contains s "/") eqn:Hs.
  - split; [exact IHa |]. right.
    destruct IHb as [E | [before E]].
    + rewrite <- E in IHa. congruence.
    + exists (String c before). simpl. f_equal. exact E.
  - destruct (Ascii.eqb_spec c "/") as [-> | Hne].
    + split; [exact Hs |]. right. exists EmptyString. reflexivity.
    + split; [| now left].
      rewrite contains_slash_cons, Hs.
      destruct (Ascii.eqb_spec c "/"); [contradiction | reflexivity].
Qed.

(** ** The signer *)

Lemma signing_string_eq (self : APSystemsApi) (request_method requuest_path ts nonce : string) :
  signing_string self request_method requuest_path ts nonce
  = Return (ts ++ "/" ++ nonce ++ "/" ++ api_app_id self ++ "/"
            ++ text_after_last_slash requuest_path ++ "/"
            ++ Py.upper request_method ++ "/" ++ "HmacSHA256").
Proof.
  unfold signing_string. rewrite final_segment. reflexivity.
Qed.

(** Header construction never fails. *)
Lemma request_headers_returns (self : APSystemsApi) (request_method requuest_path : string)
    (now : DateTime) (uuid : Z) :
  exists hs, _request_headers self request_method requuest_path now uuid = Return hs.
Proof.
  unfold _request_headers. rewrite signing_string_eq. cbn [bind]. eauto.
Qed.

Lemma upper_char_ascii (c : ascii) :
  (Z.of_N (N_of_ascii c) <? 128) = true ->
  Py.upper_char c = String (capital_of c) EmptyString.
Proof.
  intros H. destruct c as [[] [] [] [] [] [] [] []];
    try reflexivity; vm_compute in H; discriminate H.
Qed.

(** On ASCII text [upper] is the upper case of the specification. *)
Lemma upper_ascii (s : string) :
  Py.is_ascii s = true -> Py.upper s = in_upper_case s.
Proof.
  unfold Py.is_ascii. induction s as [| c s IH]; [reflexivity |].
  cbn [list_ascii_of_string forallb]. intros H.
  apply andb_true_iff in H as [Hc Hs].
  cbn [Py.upper in_upper_case]. rewrite (upper_char_ascii c Hc), (IH Hs). reflexivity.
Qed.

(** C1.  For every method of ASCII characters, every path, application id,
    secret, timestamp and nonce, the text that is signed is the timestamp,
    the nonce, the application id, the text after the last slash of the path,
    the method in upper case and the literal name HmacSHA256, joined by
    slashes in that order; and the [x-ca-signature] header built for a clock
    reading and a UUID is the base64 text of the HMAC-SHA256 digest of that
    text under the secret, next to the timestamp and the nonce that went into
    it.  HMAC-SHA256 and base64 are the functions of RFC 4231 and RFC 4648:
    on the second test case of RFC 4231 they give the digest printed there. *)
Theorem signer_signs_canonical_string :
  forall (self : APSystemsApi) (request_method requuest_path : string),
    Py.is_ascii request_method = true ->
    (forall timestamp nonce : string,
        signing_string self request_method requuest_path timestamp nonce
        = Return (timestamp ++ "/" ++ nonce ++ "/" ++ api_app_id self ++ "/"
                  ++ text_after_last_slash requuest_path ++ "/"
                  ++ in_upper_case request_method ++ "/" ++ "HmacSHA256"))
    /\ (forall (now : DateTime) (uuid : Z),
           let timestamp := Py.str_of_int (round_timestamp now) in
           let nonce := uuid_hex uuid in
           let canonical :=
             timestamp ++ "/" ++ nonce ++ "/" ++ api_app_id self ++ "/"
             ++ text_after_last_slash requuest_path ++ "/"
             ++ in_upper_case request_method ++ "/" ++ "HmacSHA256" in
           exists hs : Headers,
             _request_headers self request_method requuest_path now uuid = Return hs
             /\ header "x-ca-timestamp" hs = Some timestamp
             /\ header "x-ca-nonce" hs = Some nonce
             /\ header "x-ca-signature" hs
                = Some (Bytes.decode_ascii
                          (Base64.b64encode
                             (HMAC.sha256_digest (Bytes.encode (api_app_secret self))
                                                 (Bytes.encode canonical)))))
    /\ Bytes.decode_ascii
         (Base64.b64encode
            (HMAC.sha256_digest (Bytes.encode "Jefe")
                                (Bytes.encode "what do ya want for nothing?")))
       = "W9zBRr9gdU5qBCQmCJV1x1oAPwidJzmDnexYuWTsOEM=".
Proof.
  intros self request_method requuest_path Hascii.
  split; [| split].
  - intros. rewrite signing_string_eq, (upper_ascii _ Hascii). reflexivity.
  - intros now uuid timestamp nonce canonical.
    unfold _request_headers. fold timestamp nonce.
    rewrite signing_string_eq, (upper_ascii _ Hascii). cbn [bind].
    eexists. split; [reflexivity |]. repeat split.
  - vm_compute. reflexivity.
Qed.

(** The summary request of the sample client, its method written in small
    letters: the signed text, and the signature Python computes for it. *)
Lemma signer_signs_canonical_string_witness :
  signing_string sample_api "get" "/user/api/v2/systems/summary/SID1"
                 "1700000000" "0123456789abcdef0123456789abcdef"
  = Return "1700000000/0123456789abcdef0123456789abcdef/app/SID1/GET/HmacSHA256"
  /\ exists hs : Headers,
       _request_headers sample_api "get" "/user/api/v2/systems/summary/SID1"
                        sample_now sample_uuid = Return hs
       /\ header "x-ca-timestamp" hs = Some "1700000000"
       /\ header "x-ca-nonce" hs = Some "0123456789abcdef0123456789abcdef"
       /\ header "x-ca-signature" hs = Some "3mUon2zIPN79TXYbh1l5TCh9eDkp7ceqOOk38IfhL74=".
Proof.
  destruct (signer_signs_canonical_string sample_api "get"
              "/user/api/v2/systems/summary/SID1" eq_refl) as (Htext & Hheaders & _).
  split.
  - exact (Htext "1700000000" "0123456789abcdef0123456789abcdef").
  - destruct (Hheaders sample_now sample_uuid) as (hs & Hhs & Hts & Hnonce & Hsig).
    exists hs. split; [exact Hhs |]. split; [| split].
    + rewrite Hts. vm_compute. reflexivity.
    + rewrite Hnonce. vm_compute. reflexivity.
    + rewrite Hsig. vm_compute. reflexivity.
Defined.

(** C9.  Header construction is a function of the method, the path, the
    credentials, the rounded timestamp and the nonce: two runs that agree on
    these give the same six headers, the signature among them. *)
Theorem signer_deterministic :
  forall (self : APSystemsApi) (request_method requuest_path : string)
         (now1 now2 : DateTime) (uuid1 uuid2 : Z),
    round_timestamp now1 = round_timestamp now2 ->
    uuid_hex uuid1 = uuid_hex uuid2 ->
    _request_headers self request_method requuest_path now1 uuid1
    = _request_headers self request_method requuest_path now2 uuid2
    /\ (x <- _request_headers self request_method requuest_path now1 uuid1 ;;
        Return (header "x-ca-signature" x))
       = (x <- _request_headers self request_method requuest_path now2 uuid2 ;;
          Return (header "x-ca-signature" x)).
Proof.
  intros self request_method requuest_path now1 now2 uuid1 uuid2 Hts Hnonce.
  assert (E : _request_headers self request_method requuest_path now1 uuid1
              = _request_headers self request_method requuest_path now2 uuid2).
  { unfold _request_headers. rewrite Hts, Hnonce. reflexivity. }
  split; [exact E | now rewrite E].
Qed.

(** C10.  Two request paths with the same text after their last slash are
    signed alike: the text that is signed, the signature and the whole
    header mapping coincide. *)
Theorem signature_ignores_path_prefix :
  forall (self : APSystemsApi) (request_method path1 path2 : string),
    text_after_last_slash path1 = text_after_last_slash path2 ->
    (forall timestamp nonce : string,
        signing_string self request_method path1 timestamp nonce
        = signing_string self request_method path2 timestamp nonce)
    /\ (forall (now : DateTime) (uuid : Z),
           _request_headers self request_method path1 now uuid
           = _request_headers self request_method path2 now uuid).
Proof.
  intros self request_method path1 path2 Hseg.
  assert (E : forall ts nonce,
             signing_string self request_method path1 ts nonce
             = signing_string self request_method path2 ts nonce).
  { intros. rewrite !signing_string_eq, Hseg. reflexivity. }
  split; [exact E |].
  intros now uuid. unfold _request_headers. rewrite E. reflexivity.
Qed.

(** ** The fetch operations *)

(** What is done with a response once it is there. *)
Definition read_envelope (response : Response) : result JSON.value :=
  _ <- raise_for_status response ;;
  data <- response_json response ;;
  _ <- check_code data ;;
  JSON.getitem data "data".

Lemma summary_request_returns (self : APSystemsApi) (env : Env) :
  exists request, summary_request self env = Return request.
Proof.
  unfold summary_request.
  destruct (request_headers_returns self "GET" ("/user/api/v2/systems/summary/" ++ sid self)
              (datetime_now env 0%nat) (uuid4 env)) as [hs ->].
  cbn [bind]. eauto.
Qed.

Lemma energy_request_returns (self : APSystemsApi) (env : Env) :
  exists request, energy_request self env = Return request.
Proof.
  unfold energy_request.
  destruct (request_headers_returns self "GET"
              ("/user/api/v2/systems/" ++ sid self ++ "/devices/ecu/energy/" ++ ecu_id self)
              (datetime_now env 0%nat) (uuid4 env)) as [hs ->].
  cbn [bind]. eauto.
Qed.

(** A server that gives one answer to every request gives it to these two. *)
Lemma constant_server_receives (self : APSystemsApi) (env : Env) (response : Response) :
  (forall request, server env request = Responded response) ->
  receives (summary_request self env) env response
  /\ receives (energy_request self env) env response.
Proof.
  intros Hserver. split.
  - destruct (summary_request_returns self env) as [request E]. exists request. auto.
  - destruct (energy_request_returns self env) as [request E]. exists request. auto.
Defined.

Lemma system_summary_received (self : APSystemsApi) (env : Env) (response : Response) :
  receives (summary_request self env) env response ->
  system_summary self env = (payload <- read_envelope response ;; SystemSummaryData.new payload).
Proof.
  intros (request & Hrequest & Hserver). unfold system_summary, read_envelope.
  rewrite Hrequest. cbn [bind]. unfold requests_get. rewrite Hserver. cbn [bind].
  destruct (raise_for_status response); cbn [bind]; [| reflexivity].
  destruct (response_json response) as [data |]; cbn [bind]; [| reflexivity].
  destruct (check_code data); reflexivity.
Qed.

Lemma ecu_minutely_energy_received (self : APSystemsApi) (env : Env) (response : Response) :
  receives (energy_request self env) env response ->
  ecu_minutely_energy self env
  = (payload <- read_envelope response ;; ECUMinutelyEnergyData.new payload).
Proof.
  intros (request & Hrequest & Hserver). unfold ecu_minutely_energy, read_envelope.
  rewrite Hrequest. cbn [bind]. unfold requests_get. rewrite Hserver. cbn [bind].
  destruct (raise_for_status response); cbn [bind]; [| reflexivity].
  destruct (response_json response) as [data |]; cbn [bind]; [| reflexivity].
  destruct (check_code data); reflexivity.
Qed.

Lemma read_envelope_nonzero (response : Response) (body code : JSON.value) :
  raise_for_status response = Return tt ->
  json response = Some body ->
  JSON.getitem body "code" = Return code ->
  JSON.ne_zero code = true ->
  read_envelope response
  = Raise (ResponseException ("Non zero response code: " ++ JSON.dumps 4 body)).
Proof.
  intros Hstatus Hjson Hcode Hne.
  unfold read_envelope, response_json, check_code.
  rewrite Hstatus, Hjson. cbn [bind]. rewrite Hcode. cbn [bind]. rewrite Hne. reflexivity.
Qed.

Lemma read_envelope_zero (response : Response) (body code payload : JSON.value) :
  raise_for_status response = Return tt ->
  json response = Some body ->
  JSON.getitem body "code" = Return code ->
  JSON.ne_zero code = false ->
  JSON.getitem body "data" = Return payload ->
  read_envelope response = Return payload.
Proof.
  intros Hstatus Hjson Hcode Hzero Hdata.
  unfold read_envelope, response_json, check_code.
  rewrite Hstatus, Hjson. cbn [bind]. rewrite Hcode. cbn [bind]. rewrite Hzero. cbn [bind].
  exact Hdata.
Qed.

(** C2, as amended.  For every response with a status that is no error and a
    decoded body whose [code] is not zero, both fetch operations raise a
    [ResponseException]; its message is the text "Non zero response code: "
    followed by the decoded body printed again by [json.dumps] with an indent
    of four. *)
Theorem nonzero_code_raises_response_exception :
  forall (self : APSystemsApi) (env : Env) (response : Response) (body code : JSON.value),
    raise_for_status response = Return tt ->
    json response = Some body ->
    JSON.getitem body "code" = Return code ->
    JSON.ne_zero code = true ->
    (receives (summary_request self env) env response ->
     system_summary self env
     = Raise (ResponseException ("Non zero response code: " ++ JSON.dumps 4 body)))
    /\ (receives (energy_request self env) env response ->
        ecu_minutely_energy self env
        = Raise (ResponseException ("Non zero response code: " ++ JSON.dumps 4 body))).
Proof.
  intros self env response body code Hstatus Hjson Hcode Hne.
  split; intros Hreceived.
  - rewrite (system_summary_received self env response Hreceived).
    now rewrite (read_envelope_nonzero response body code Hstatus Hjson Hcode Hne).
  - rewrite (ecu_minutely_energy_received self env response Hreceived).
    now rewrite (read_envelope_nonzero response body code Hstatus Hjson Hcode Hne).
Qed.

(** *** Building the records *)

Lemma dict_getitem_contains (members : list (string * JSON.value)) (key : string) :
  JSON.dict_contains members key = false <-> JSON.dict_getitem members key = Raise KeyError.
Proof.
  unfold JSON.dict_contains.
  induction members as [| [k v] rest IH]; cbn [JSON.dict_getitem existsb fst].
  - tauto.
  - destruct (String.eqb k key); cbn [orb]; [split; discriminate | exact IH].
Qed.

Lemma keyword_argument_missing (kwargs : list (string * JSON.value)) (field : string) :
  JSON.dict_contains kwargs field = false -> keyword_argument kwargs field = Raise TypeError.
Proof.
  intros H. apply dict_getitem_contains in H. unfold keyword_argument. now rewrite H.
Qed.

Lemma keyword_argument_raises (kwargs : list (string * JSON.value)) (field : string) (e : exn) :
  keyword_argument kwargs field = Raise e -> e = TypeError.
Proof.
  unfold keyword_argument. destruct (JSON.dict_getitem kwargs field); congruence.
Qed.

Lemma reject_unexpected_extra (fields : list string) (kwargs : list (string * JSON.value))
    (key : string) :
  JSON.dict_contains kwargs key = true -> ~ In key fields ->
  reject_unexpected fields kwargs = Raise TypeError.
Proof.
  intros Hin Hout. unfold reject_unexpected.
  replace (forallb _ kwargs) with false; [reflexivity |].
  symmetry. apply not_true_is_false. intros Hall.
  rewrite forallb_forall in Hall.
  apply existsb_exists in Hin as [[k v] [Hkv Hk]]. cbn [fst] in Hk.
  apply String.eqb_eq in Hk. subst k.
  specialize (Hall _ Hkv). cbn [fst] in Hall.
  apply existsb_exists in Hall as [f [Hf Hkf]].
  apply String.eqb_eq in Hkf. subst f. contradiction.
Qed.

Lemma reject_unexpected_raises (fields : list string) (kwargs : list (string * JSON.value))
    (e : exn) :
  reject_unexpected fields kwargs = Raise e -> e = TypeError.
Proof.
  unfold reject_unexpected. destruct (forallb _ kwargs); congruence.
Qed.

(** A [data] object that lacks a field of the record or has a key that is no
    field of it. *)
Definition field_mismatch (fields : list string) (members : list (string * JSON.value)) : Prop :=
  (exists field, In field fields /\ JSON.dict_contains members field = false)
  \/ (exists key, JSON.dict_contains members key = true /\ ~ In key fields).

Lemma keyword_argument_present (kwargs : list (string * JSON.value)) (field : string)
    (v : JSON.value) :
  keyword_argument kwargs field = Return v -> JSON.dict_contains kwargs field = true.
Proof.
  intros H. destruct (JSON.dict_contains kwargs field) eqn:E; [reflexivity |].
  rewrite (keyword_argument_missing _ _ E) in H. discriminate.
Qed.

(** Splits an equation on a chain of binds, one call at a time. *)
Ltac bind_inv H :=
  repeat match type of H with
         | bind ?m _ = _ =>
             let E := fresh "E" in
             destruct m eqn:E; cbn [bind] in H
         end.

Lemma summary_new_raises (v : JSON.value) (e : exn) :
  SystemSummaryData.new v = Raise e -> e = TypeError.
Proof.
  unfold SystemSummaryData.new. intros H.
  destruct v; cbn [unpack_kwargs bind] in H; try congruence.
  bind_inv H;
    repeat match goal with
           | E : keyword_argument _ _ = Raise _ |- _ => apply keyword_argument_raises in E
           | E : reject_unexpected _ _ = Raise _ |- _ => apply reject_unexpected_raises in E
           end; congruence.
Qed.

Lemma energy_new_raises (v : JSON.value) (e : exn) :
  ECUMinutelyEnergyData.new v = Raise e -> e = TypeError.
Proof.
  unfold ECUMinutelyEnergyData.new. intros H.
  destruct v; cbn [unpack_kwargs bind] in H; try congruence.
  bind_inv H;
    repeat match goal with
           | E : keyword_argument _ _ = Raise _ |- _ => apply keyword_argument_raises in E
           | E : reject_unexpected _ _ = Raise _ |- _ => apply reject_unexpected_raises in E
           end; congruence.
Qed.

(** A record is built only from a [data] object with exactly its fields. *)
Lemma summary_new_returns (members : list (string * JSON.value)) (r : SystemSummaryData.t) :
  SystemSummaryData.new (JSON.Object members) = Return r ->
  ~ field_mismatch SystemSummaryData.fields members.
Proof.
  unfold SystemSummaryData.new. cbn [unpack_kwargs bind]. intros H.
  bind_inv H; try discriminate.
  intros [(field & Hin & Hmiss) | (key & Hin & Hout)].
  - repeat match goal with
           | E : keyword_argument _ _ = Return _ |- _ => apply keyword_argument_present in E
           end.
    repeat (destruct Hin as [<- | Hin]; [congruence |]). destruct Hin.
  - rewrite (reject_unexpected_extra _ _ key Hin Hout) in E. discriminate.
Qed.

Lemma energy_new_returns (members : list (string * JSON.value)) (r : ECUMinutelyEnergyData.t) :
  ECUMinutelyEnergyData.new (JSON.Object members) = Return r ->
  ~ field_mismatch ECUMinutelyEnergyData.fields members.
Proof.
  unfold ECUMinutelyEnergyData.new. cbn [unpack_kwargs bind]. intros H.
  bind_inv H; try discriminate.
  intros [(field & Hin & Hmiss) | (key & Hin & Hout)].
  - repeat match goal with
           | E : keyword_argument _ _ = Return _ |- _ => apply keyword_argument_present in E
           end.
    repeat (destruct Hin as [<- | Hin]; [congruence |]). destruct Hin.
  - rewrite (reject_unexpected_extra _ _ key Hin Hout) in E. discriminate.
Qed.

Lemma summary_new_mismatch (members : list (string * JSON.value)) :
  field_mismatch SystemSummaryData.fields members ->
  SystemSummaryData.new (JSON.Object members) = Raise TypeError.
Proof.
  intros Hbad. destruct (SystemSummaryData.new (JSON.Object members)) as [r | e] eqn:E.
  - now apply summary_new_returns in E.
  - now apply summary_new_raises in E; subst.
Qed.

Lemma energy_new_mismatch (members : list (string * JSON.value)) :
  field_mismatch ECUMinutelyEnergyData.fields members ->
  ECUMinutelyEnergyData.new (JSON.Object members) = Raise TypeError.
Proof.
  intros Hbad. destruct (ECUMinutelyEnergyData.new (JSON.Object members)) as [r | e] eqn:E.
  - now apply energy_new_returns in E.
  - now apply energy_new_raises in E; subst.
Qed.

(** C3.  For every response whose [code] is zero, building the record fails
    (with a [TypeError]) whenever the [data] object lacks one of its four
    fields or has a key that is none of them: nothing is defaulted and
    nothing is ignored.  This holds for [SystemSummaryData] in
    [system_summary] and for [ECUMinutelyEnergyData] in
    [ecu_minutely_energy]. *)
Theorem decode_rejects_missing_and_extra_fields :
  forall (self : APSystemsApi) (env : Env) (response : Response)
         (body code : JSON.value) (members : list (string * JSON.value)),
    raise_for_status response = Return tt ->
    json response = Some body ->
    JSON.getitem body "code" = Return code ->
    JSON.ne_zero code = false ->
    JSON.getitem body "data" = Return (JSON.Object members) ->
    (receives (summary_request self env) env response ->
     field_mismatch SystemSummaryData.fields members ->
     system_summary self env = Raise TypeError)
    /\ (receives (energy_request self env) env response ->
        field_mismatch ECUMinutelyEnergyData.fields members ->
        ecu_minutely_energy self env = Raise TypeError).
Proof.
  intros self env response body code members Hstatus Hjson Hcode Hzero Hdata.
  split; intros Hreceived Hbad.
  - rewrite (system_summary_received self env response Hreceived).
    rewrite (read_envelope_zero response body code _ Hstatus Hjson Hcode Hzero Hdata).
    cbn [bind]. now apply summary_new_mismatch.
  - rewrite (ecu_minutely_energy_received self env response Hreceived).
    rewrite (read_envelope_zero response body code _ Hstatus Hjson Hcode Hzero Hdata).
    cbn [bind]. now apply energy_new_mismatch.
Qed.

(** C2, as stated, fails.  The server rejects with the compact body of the
    specification's scenario; both operations raise a [ResponseException]
    whose message does not contain that body.  A server that sends the same
    rejection with blanks after the separators gets the very same error, so
    the body as received cannot be read back from it. *)
Lemma response_exception_does_not_hold_the_body :
  let compact := {| status_code := 200; text := rejected_text; json := Some rejected_body |} in
  let spaced :=
    {| status_code := 200; text := rejected_text_spaced; json := Some rejected_body |} in
  JSON.getitem rejected_body "code" = Return (JSON.Int 1)
  /\ system_summary sample_api (sample_env compact) = Raise (ResponseException rejected_message)
  /\ ecu_minutely_energy sample_api (sample_env compact)
     = Raise (ResponseException rejected_message)
  /\ Py.contains rejected_message (text compact) = false
  /\ String.eqb (text compact) (text spaced) = false
  /\ ecu_minutely_energy sample_api (sample_env spaced)
     = ecu_minutely_energy sample_api (sample_env compact).
Proof.
  vm_compute. repeat split.
Qed.

(** ** The minutely record *)

Lemma energy_new_exact (members : list (string * JSON.value))
    (today time power energy : JSON.value) :
  (forall key, JSON.dict_contains members key = true -> In key ECUMinutelyEnergyData.fields) ->
  JSON.dict_getitem members "today" = Return today ->
  JSON.dict_getitem members "time" = Return time ->
  JSON.dict_getitem members "power" = Return power ->
  JSON.dict_getitem members "energy" = Return energy ->
  ECUMinutelyEnergyData.new (JSON.Object members)
  = Return {| ECUMinutelyEnergyData.today := today;
              ECUMinutelyEnergyData.time := time;
              ECUMinutelyEnergyData.power := power;
              ECUMinutelyEnergyData.energy := energy |}.
Proof.
  intros Hkeys Htoday Htime Hpower Henergy.
  unfold ECUMinutelyEnergyData.new, keyword_argument. cbn [unpack_kwargs bind].
  replace (reject_unexpected ECUMinutelyEnergyData.fields members) with (Return tt).
  - cbn [bind]. rewrite Htoday, Htime, Hpower, Henergy. reflexivity.
  - symmetry. unfold reject_unexpected.
    replace (forallb _ members) with true; [reflexivity |].
    symmetry. apply forallb_forall. intros [k v] Hkv. cbn [fst].
    apply existsb_exists. exists k. split; [| apply String.eqb_refl].
    apply Hkeys. apply existsb_exists. exists (k, v). split; [exact Hkv | apply String.eqb_refl].
Qed.

(** C8, as amended.  The record [ecu_minutely_energy] returns for a success
    envelope holds the [today], [time], [power] and [energy] values of the
    [data] object as they came, whatever they are: nothing is compared or
    sorted, so the three sequences are of one length and in increasing
    order only when the response has them so. *)
Theorem minutely_record_is_the_payload :
  forall (self : APSystemsApi) (env : Env) (response : Response)
         (body code : JSON.value) (members : list (string * JSON.value))
         (today time power energy : JSON.value),
    receives (energy_request self env) env response ->
    raise_for_status response = Return tt ->
    json response = Some body ->
    JSON.getitem body "code" = Return code ->
    JSON.ne_zero code = false ->
    JSON.getitem body "data" = Return (JSON.Object members) ->
    (forall key, JSON.dict_contains members key = true -> In key ECUMinutelyEnergyData.fields) ->
    JSON.dict_getitem members "today" = Return today ->
    JSON.dict_getitem members "time" = Return time ->
    JSON.dict_getitem members "power" = Return power ->
    JSON.dict_getitem members "energy" = Return energy ->
    ecu_minutely_energy self env
    = Return {| ECUMinutelyEnergyData.today := today;
                ECUMinutelyEnergyData.time := time;
                ECUMinutelyEnergyData.power := power;
                ECUMinutelyEnergyData.energy := energy |}.
Proof.
  intros self env response body code members today time power energy
         Hserver Hstatus Hjson Hcode Hzero Hdata Hkeys Htoday Htime Hpower Henergy.
  rewrite (ecu_minutely_energy_received self env response Hserver).
  rewrite (read_envelope_zero response body code _ Hstatus Hjson Hcode Hzero Hdata).
  cbn [bind]. now apply energy_new_exact.
Qed.

(** C8, as stated, fails.  A success envelope whose sequences have two, one
    and no items is turned into a record as it is, and the record breaks the
    invariant. *)
Lemma minutely_record_can_break_the_invariant :
  let ragged :=
    {| ECUMinutelyEnergyData.today := JSON.Float {| JSON.repr := "1.5" |};
       ECUMinutelyEnergyData.time := JSON.Array [JSON.Str "10:00"; JSON.Str "10:05"];
       ECUMinutelyEnergyData.power := JSON.Array [JSON.Int 5];
       ECUMinutelyEnergyData.energy := JSON.Array [] |} in
  ecu_minutely_energy sample_api (sample_env (json_response (success_body ragged_payload)))
  = Return ragged
  /\ ECUMinutelyEnergyData.invariant ragged = false.
Proof.
  vm_compute. split; reflexivity.
Qed.

(** C7.  On a record whose [power] and [energy] are lists, [latest_power]
    and [latest_energy] return the last item of a list that has one and raise
    [IndexError] on an empty list. *)
Theorem latest_is_last_or_index_error :
  forall (self : ECUMinutelyEnergyData.t) (powers energies : list JSON.value),
    ECUMinutelyEnergyData.power self = JSON.Array powers ->
    ECUMinutelyEnergyData.energy self = JSON.Array energies ->
    (powers <> [] ->
     ECUMinutelyEnergyData.latest_power self = Return (List.last powers JSON.Null))
    /\ (energies <> [] ->
        ECUMinutelyEnergyData.latest_energy self = Return (List.last energies JSON.Null))
    /\ (powers = [] -> ECUMinutelyEnergyData.latest_power self = Raise IndexError)
    /\ (energies = [] -> ECUMinutelyEnergyData.latest_energy self = Raise IndexError).
Proof.
  intros self powers energies Hp He.
  unfold ECUMinutelyEnergyData.latest_power, ECUMinutelyEnergyData.latest_energy.
  rewrite Hp, He. cbn [JSON.getitem_int].
  repeat split; intros H.
  - now apply list_getitem_last.
  - now apply list_getitem_last.
  - subst. apply list_getitem_empty.
  - subst. apply list_getitem_empty.
Qed.

(** ** The sensor *)

Lemma dict_getitem_raises (members : list (string * JSON.value)) (key : string) (e : exn) :
  JSON.dict_getitem members key = Raise e -> e = KeyError.
Proof.
  induction members as [| [k v] rest IH]; cbn [JSON.dict_getitem].
  - congruence.
  - destruct (String.eqb k key); [discriminate | exact IH].
Qed.

Lemma getitem_raises (v : JSON.value) (key : string) (e : exn) :
  JSON.getitem v key = Raise e -> isinstance_Exception e = true.
Proof.
  destruct v; cbn [JSON.getitem]; intros H;
    try (injection H as <-; reflexivity).
  apply dict_getitem_raises in H. now subst.
Qed.

Lemma check_code_raises (data : JSON.value) (e : exn) :
  check_code data = Raise e -> isinstance_Exception e = true.
Proof.
  unfold check_code. intros H. bind_inv H.
  - destruct (JSON.ne_zero a); [injection H as <-; reflexivity | discriminate].
  - injection H as <-. now apply getitem_raises in E.
Qed.

(** Whatever [system_summary] raises is an instance of [Exception]. *)
Lemma system_summary_raises (self : APSystemsApi) (env : Env) (e : exn) :
  system_summary self env = Raise e -> isinstance_Exception e = true.
Proof.
  unfold system_summary. intros H.
  destruct (summary_request_returns self env) as [request Hrequest].
  rewrite Hrequest in H. cbn [bind] in H.
  unfold requests_get in H.
  destruct (server env request) as [| response]; cbn [bind] in H;
    [injection H as <-; reflexivity |].
  unfold raise_for_status, response_json in H.
  destruct ((400 <=? status_code response) && (status_code response <? 600)); cbn [bind] in H;
    [injection H as <-; reflexivity |].
  destruct (json response) as [data |]; cbn [bind] in H;
    [| injection H as <-; reflexivity].
  destruct (check_code data) eqn:Hcheck; cbn [bind] in H;
    [| injection H as <-; now apply check_code_raises in Hcheck].
  destruct (JSON.getitem data "data") eqn:Hdata; cbn [bind] in H;
    [| injection H as <-; now apply getitem_raises in Hdata].
  apply summary_new_raises in H. now subst.
Qed.

(** C6.  [update] never raises, whatever the call of the client does.  When
    [system_summary] raises, be it for the transport, the envelope or the
    decoding, the state becomes [STATE_UNAVAILABLE]; when it returns, the
    state becomes the marker ["TEST"], which is not [STATE_UNAVAILABLE]. *)
Theorem update_never_raises :
  forall (self : APSystemsSensor) (env : Env),
    match system_summary (_api self) env with
    | Raise _ =>
        exists after : APSystemsSensor,
          update self env = Return after /\ _state after = Some STATE_UNAVAILABLE
    | Return _ =>
        exists after : APSystemsSensor,
          update self env = Return after
          /\ _state after = Some "TEST"
          /\ String.eqb "TEST" STATE_UNAVAILABLE = false
    end.
Proof.
  intros self env. unfold update.
  destruct (system_summary (_api self) env) as [summary | e] eqn:Hcall;
    cbn [bind try_except_Exception].
  - eexists. repeat split.
  - rewrite (system_summary_raises _ _ _ Hcall). eexists. split; reflexivity.
Qed.

Lemma update_cases :
  (exists after, update (sample_sensor None) offline_env = Return after
                 /\ _state after = Some STATE_UNAVAILABLE)
  /\ (exists after,
         update (sample_sensor None)
                (sample_env {| status_code := 500; text := EmptyString; json := None |})
         = Return after
         /\ _state after = Some STATE_UNAVAILABLE)
  /\ (exists after,
         update (sample_sensor None) (sample_env (json_response (success_body summary_payload)))
         = Return after
         /\ _state after = Some "TEST").
Proof.
  repeat split; eexists; (split; [vm_compute; reflexivity | reflexivity]).
Qed.


(** C5.  With the flag at ["False"], which is what the configuration values
    [off], [no] and [false] become, [available] is true whatever the clock
    and the sun say. *)
Theorem available_when_window_disabled :
  forall (self : APSystemsSensor) (hass : Hass),
    _sunset self = "False" -> available self hass = Return true.
Proof.
  intros self hass Hflag. unfold available. rewrite Hflag. reflexivity.
Qed.

(** ** Instances on the sample inputs *)

Lemma signer_deterministic_witness :
  let later :=
    {| year := 2023; month := 11; day := 14; timestamp_us := 1700000000499999 |} in
  round_timestamp sample_now = round_timestamp later
  /\ _request_headers sample_api "GET" "/user/api/v2/systems/summary/SID1" sample_now sample_uuid
     = _request_headers sample_api "GET" "/user/api/v2/systems/summary/SID1" later sample_uuid.
Proof.
  split; [reflexivity |].
  apply (signer_deterministic sample_api "GET" "/user/api/v2/systems/summary/SID1");
    reflexivity.
Defined.

Lemma signature_ignores_path_prefix_witness :
  text_after_last_slash "/user/api/v2/systems/summary/SID1" = text_after_last_slash "/other/SID1"
  /\ _request_headers sample_api "GET" "/user/api/v2/systems/summary/SID1" sample_now sample_uuid
     = _request_headers sample_api "GET" "/other/SID1" sample_now sample_uuid.
Proof.
  split; [reflexivity |].
  apply (signature_ignores_path_prefix sample_api "GET"
           "/user/api/v2/systems/summary/SID1" "/other/SID1").
  reflexivity.
Defined.

Lemma nonzero_code_raises_response_exception_witness :
  system_summary sample_api (sample_env (json_response rejected_body))
  = Raise (ResponseException ("Non zero response code: " ++ JSON.dumps 4 rejected_body))
  /\ ecu_minutely_energy sample_api (sample_env (json_response rejected_body))
     = Raise (ResponseException ("Non zero response code: " ++ JSON.dumps 4 rejected_body)).
Proof.
  destruct (constant_server_receives sample_api (sample_env (json_response rejected_body))
              (json_response rejected_body) (fun request => eq_refl))
    as [Hsummary Henergy].
  destruct (nonzero_code_raises_response_exception sample_api
              (sample_env (json_response rejected_body)) (json_response rejected_body)
              rejected_body (JSON.Int 1) eq_refl eq_refl eq_refl eq_refl)
    as [Hfirst Hsecond].
  split; [apply Hfirst, Hsummary | apply Hsecond, Henergy].
Defined.

(** A summary payload with one key too many: it has a key that is no field
    of the summary record, and lacks three fields of the minutely record. *)
Lemma decode_rejects_missing_and_extra_fields_witness :
  let members :=
    [ ("month", JSON.Int 1); ("year", JSON.Int 2); ("today", JSON.Int 3);
      ("lifetime", JSON.Int 4); ("bonus", JSON.Int 5) ] in
  let env := sample_env (json_response (success_body (JSON.Object members))) in
  system_summary sample_api env = Raise TypeError
  /\ ecu_minutely_energy sample_api env = Raise TypeError.
Proof.
  intros members env.
  destruct (constant_server_receives sample_api env
              (json_response (success_body (JSON.Object members))) (fun request => eq_refl))
    as [Hfirst Hsecond].
  destruct (decode_rejects_missing_and_extra_fields sample_api env
              (json_response (success_body (JSON.Object members)))
              (success_body (JSON.Object members)) (JSON.Int 0) members
              eq_refl eq_refl eq_refl eq_refl eq_refl)
    as [Hsummary Henergy].
  split.
  - apply (Hsummary Hfirst). right. exists "bonus". split; [reflexivity |].
    cbn [In SystemSummaryData.fields].
    intros [H | [H | [H | [H | []]]]]; discriminate H.
  - apply (Henergy Hsecond). left. exists "time". split; [| reflexivity].
    cbn [In ECUMinutelyEnergyData.fields]. auto.
Defined.

Lemma regular_payload_keys (key : string) :
  JSON.dict_contains
    [ ("today", JSON.Float {| JSON.repr := "1.5" |});
      ("time", JSON.Array [JSON.Str "10:00"; JSON.Str "10:05"]);
      ("power", JSON.Array [JSON.Int 5; JSON.Int 7]);
      ("energy", JSON.Array [JSON.Float {| JSON.repr := "0.1" |};
                             JSON.Float {| JSON.repr := "0.2" |}]) ] key = true ->
  In key ECUMinutelyEnergyData.fields.
Proof.
  unfold JSON.dict_contains. cbn [existsb fst]. intros H.
  repeat (apply orb_true_iff in H as [H | H];
          [apply String.eqb_eq in H; subst; cbn [In ECUMinutelyEnergyData.fields]; auto |]).
  discriminate.
Defined.

Lemma minutely_record_is_the_payload_witness :
  ecu_minutely_energy sample_api (sample_env (json_response (success_body regular_payload)))
  = Return {| ECUMinutelyEnergyData.today := JSON.Float {| JSON.repr := "1.5" |};
              ECUMinutelyEnergyData.time := JSON.Array [JSON.Str "10:00"; JSON.Str "10:05"];
              ECUMinutelyEnergyData.power := JSON.Array [JSON.Int 5; JSON.Int 7];
              ECUMinutelyEnergyData.energy :=
                JSON.Array [JSON.Float {| JSON.repr := "0.1" |};
                            JSON.Float {| JSON.repr := "0.2" |}] |}.
Proof.
  apply (minutely_record_is_the_payload sample_api
           (sample_env (json_response (success_body regular_payload)))
           (json_response (success_body regular_payload))
           (success_body regular_payload) (JSON.Int 0)
           _ _ _ _ _
           (proj2 (constant_server_receives sample_api
                     (sample_env (json_response (success_body regular_payload)))
                     (json_response (success_body regular_payload))
                     (fun request => eq_refl)))
           eq_refl eq_refl eq_refl eq_refl eq_refl
           regular_payload_keys eq_refl eq_refl eq_refl eq_refl).
Defined.

Lemma latest_is_last_or_index_error_witness :
  let ragged :=
    {| ECUMinutelyEnergyData.today := JSON.Float {| JSON.repr := "1.5" |};
       ECUMinutelyEnergyData.time := JSON.Array [JSON.Str "10:00"; JSON.Str "10:05"];
       ECUMinutelyEnergyData.power := JSON.Array [JSON.Int 5; JSON.Int 7];
       ECUMinutelyEnergyData.energy := JSON.Array [] |} in
  ECUMinutelyEnergyData.latest_power ragged = Return (JSON.Int 7)
  /\ ECUMinutelyEnergyData.latest_energy ragged = Raise IndexError.
Proof.
  intros ragged.
  destruct (latest_is_last_or_index_error ragged [JSON.Int 5; JSON.Int 7] [] eq_refl eq_refl)
    as (Hpower & _ & _ & Henergy).
  split.
  - apply Hpower. discriminate.
  - apply Henergy. reflexivity.
Defined.


(** The window switched off in the configuration ([sunset: off]): true at
    00:00 and at 23:59, with the sun rising at 06:00 and setting at 20:00. *)
Lemma available_when_window_disabled_witness :
  _sunset (sample_sensor (Some (YamlBool false))) = "False"
  /\ available (sample_sensor (Some (YamlBool false))) (sample_hass 0) = Return true
  /\ available (sample_sensor (Some (YamlBool false))) (sample_hass (23 * 60 + 59)) = Return true.
Proof.
  split; [reflexivity | split].
  - apply (available_when_window_disabled (sample_sensor (Some (YamlBool false)))). reflexivity.
  - apply (available_when_window_disabled (sample_sensor (Some (YamlBool false)))). reflexivity.
Defined.

(** * Further properties *)

(** ** The shape of the headers *)

Lemma string_app_assoc (a b c : string) : (a ++ b) ++ c = a ++ b ++ c.
Proof.
  induction a as [| x a IH]; [reflexivity |]. cbn. now rewrite IH.
Qed.















(** ** What the signature depends on *)

Lemma upper_app (a b : string) : Py.upper (a ++ b) = Py.upper a ++ Py.upper b.
Proof.
  induction a as [| c a IH]; [reflexivity |].
  cbn [append Py.upper]. now rewrite IH, string_app_assoc.
Qed.

Lemma upper_char_idempotent (c : ascii) : Py.upper (Py.upper_char c) = Py.upper_char c.
Proof.
  destruct c as [[] [] [] [] [] [] [] []]; reflexivity.
Qed.

Lemma upper_lower_char (c : ascii) : Py.upper_char (Py.lower_char c) = Py.upper_char c.
Proof.
  destruct c as [[] [] [] [] [] [] [] []]; reflexivity.
Qed.

Lemma upper_idempotent (s : string) : Py.upper (Py.upper s) = Py.upper s.
Proof.
  induction s as [| c s IH]; [reflexivity |].
  cbn [Py.upper]. now rewrite upper_app, upper_char_idempotent, IH.
Qed.

Lemma upper_lower (s : string) : Py.upper (Py.lower s) = Py.upper s.
Proof.
  induction s as [| c s IH]; [reflexivity |].
  cbn [Py.upper Py.lower]. now rewrite upper_lower_char, IH.
Qed.

Lemma request_headers_by_upper (self : APSystemsApi) (m1 m2 path : string)
    (now : DateTime) (uuid : Z) :
  Py.upper m1 = Py.upper m2 ->
  _request_headers self m1 path now uuid = _request_headers self m2 path now uuid.
Proof.
  intros H. unfold _request_headers. rewrite !signing_string_eq, H. reflexivity.
Qed.

(** X3.  For a method of ASCII characters the case of its letters does not
    matter to the signer: the method written in upper case or in lower case
    gets the headers, and so the signature, of the method as given. *)
Theorem signature_ignores_method_case :
  forall (self : APSystemsApi) (request_method requuest_path : string)
         (now : DateTime) (uuid : Z),
    Py.is_ascii request_method = true ->
    _request_headers self (Py.upper request_method) requuest_path now uuid
    = _request_headers self request_method requuest_path now uuid
    /\ _request_headers self (Py.lower request_method) requuest_path now uuid
       = _request_headers self request_method requuest_path now uuid.
Proof.
  intros self request_method requuest_path now uuid _.
  split; apply request_headers_by_upper.
  - apply upper_idempotent.
  - apply upper_lower.
Qed.

Lemma signature_ignores_method_case_witness :
  _request_headers sample_api "GET" "/user/api/v2/systems/summary/SID1" sample_now sample_uuid
  = _request_headers sample_api "Get" "/user/api/v2/systems/summary/SID1" sample_now sample_uuid
  /\ _request_headers sample_api "get" "/user/api/v2/systems/summary/SID1" sample_now sample_uuid
     = _request_headers sample_api "Get" "/user/api/v2/systems/summary/SID1" sample_now
         sample_uuid.
Proof.
  exact (signature_ignores_method_case sample_api "Get"
           "/user/api/v2/systems/summary/SID1" sample_now sample_uuid eq_refl).
Defined.

(** X4.  The secret enters the signature and nothing else: a client with
    another secret sends the same value under every header name other than
    [x-ca-signature]. *)
Theorem secret_only_in_signature :
  forall (self : APSystemsApi) (other_secret request_method requuest_path : string)
         (now : DateTime) (uuid : Z),
    let other :=
      {| api_app_id := api_app_id self; api_app_secret := other_secret;
         sid := sid self; ecu_id := ecu_id self |} in
    exists hs hs' : Headers,
      _request_headers self request_method requuest_path now uuid = Return hs
      /\ _request_headers other request_method requuest_path now uuid = Return hs'
      /\ List.map fst hs = List.map fst hs'
      /\ (forall name : string,
             String.eqb name "x-ca-signature" = false -> header name hs = header name hs').
Proof.
  intros self other_secret request_method requuest_path now uuid other.
  unfold _request_headers. rewrite !signing_string_eq. cbn [bind].
  do 2 eexists. split; [reflexivity |]. split; [reflexivity |]. split; [reflexivity |].
  intros name Hname. cbn [header api_app_id other].
  rewrite (String.eqb_sym "x-ca-signature" name), Hname. reflexivity.
Qed.

(** ** The signed text, read back *)

Lemma split_append (a b : string) :
  Py.contains a "/" = false -> Py.split "/" (a ++ "/" ++ b) = a :: Py.split "/" b.
Proof.
  induction a as [| c a IH]; intros H; [reflexivity |].
  rewrite contains_slash_cons in H. apply orb_false_iff in H as [Hc Ha].
  change (String c a ++ "/" ++ b) with (String c (a ++ "/" ++ b)).
  cbn [Py.split]. rewrite Hc, (IH Ha). reflexivity.
Qed.

Lemma split_join (parts : list string) :
  parts <> [] ->
  Forall (fun part => Py.contains part "/" = false) parts ->
  Py.split "/" (Py.join "/" parts) = parts.
Proof.
  intros Hne Hall. induction Hall as [| part rest Hpart Hrest IH]; [congruence |].
  destruct rest as [| next rest'].
  - cbn [Py.join]. now apply split_without_slash.
  - change (Py.join "/" (part :: next :: rest'))
      with (part ++ "/" ++ Py.join "/" (next :: rest')).
    rewrite (split_append _ _ Hpart), IH by discriminate. reflexivity.
Qed.

Lemma contains_slash_app (a b : string) :
  Py.contains (a ++ b) "/" = Py.contains a "/" || Py.contains b "/".
Proof.
  induction a as [| c a IH]; [reflexivity |].
  cbn [append]. rewrite !contains_slash_cons, IH. apply orb_assoc.
Qed.

Lemma upper_char_slash (c : ascii) :
  Py.contains (Py.upper_char c) "/" = Ascii.eqb c "/".
Proof.
  destruct c as [[] [] [] [] [] [] [] []]; reflexivity.
Qed.

Lemma upper_contains_slash (s : string) : Py.contains (Py.upper s) "/" = Py.contains s "/".
Proof.
  induction s as [| c s IH]; [reflexivity |].
  cbn [Py.upper]. now rewrite contains_slash_app, contains_slash_cons, upper_char_slash, IH.
Qed.

(** X5.  When the method is of ASCII characters and the timestamp, the
    nonce, the application id and the method hold no slash, the signed text
    falls apart at its slashes into exactly the six fields it was joined
    from, so no two different field lists are signed as the same text. *)
Theorem signed_text_splits_into_its_fields :
  forall (self : APSystemsApi) (request_method requuest_path timestamp nonce : string),
    Py.is_ascii request_method = true ->
    Py.contains timestamp "/" = false ->
    Py.contains nonce "/" = false ->
    Py.contains (api_app_id self) "/" = false ->
    Py.contains request_method "/" = false ->
    exists signed : string,
      signing_string self request_method requuest_path timestamp nonce = Return signed
      /\ Py.split "/" signed
         = [ timestamp; nonce; api_app_id self; text_after_last_slash requuest_path;
             Py.upper request_method; "HmacSHA256" ].
Proof.
  intros self request_method requuest_path timestamp nonce _ Hts Hnonce Hid Hmethod.
  unfold signing_string. rewrite final_segment. cbn [bind].
  eexists. split; [reflexivity |].
  apply split_join; [discriminate |].
  repeat constructor; try assumption.
  - apply text_after_last_slash_spec.
  - now rewrite upper_contains_slash.
Qed.

Lemma signed_text_splits_into_its_fields_witness :
  exists signed : string,
    signing_string sample_api "get" "/user/api/v2/systems/summary/SID1" "1700000000"
                   "0123456789abcdef0123456789abcdef" = Return signed
    /\ Py.split "/" signed
       = [ "1700000000"; "0123456789abcdef0123456789abcdef"; "app"; "SID1"; "GET";
           "HmacSHA256" ].
Proof.
  exact (signed_text_splits_into_its_fields sample_api "get"
           "/user/api/v2/systems/summary/SID1" "1700000000"
           "0123456789abcdef0123456789abcdef" eq_refl eq_refl eq_refl eq_refl eq_refl).
Defined.

(** ** The two requests *)

Lemma summary_path_segment (site : string) :
  Py.contains site "/" = false ->
  text_after_last_slash ("/user/api/v2/systems/summary/" ++ site) = site.
Proof.
  intros H. exact (text_after_last_slash_unique "/user/api/v2/systems/summary" site H).
Qed.

Lemma energy_path_segment (site device : string) :
  Py.contains device "/" = false ->
  text_after_last_slash ("/user/api/v2/systems/" ++ site ++ "/devices/ecu/energy/" ++ device)
  = device.
Proof.
  intros H.
  replace ("/user/api/v2/systems/" ++ site ++ "/devices/ecu/energy/" ++ device)
    with (("/user/api/v2/systems/" ++ site ++ "/devices/ecu/energy") ++ "/" ++ device).
  - now apply text_after_last_slash_unique.
  - rewrite !string_app_assoc. reflexivity.
Qed.

(** X6.  Each operation builds one request, for the URL that [urljoin]
    makes of the base URL and the operation's path, and what it signs of the
    path is the identifier at its end: the site id for the summary, which has
    no query, and the device id for the minutely energy, whose query asks for
    minutely samples of the date of the second clock reading.  (The
    identifier is taken to hold no slash.) *)
Theorem requests_sign_their_identifier :
  forall (self : APSystemsApi) (env : Env),
    let timestamp := Py.str_of_int (round_timestamp (datetime_now env 0%nat)) in
    let nonce := uuid_hex (uuid4 env) in
    let signature (identifier : string) :=
      _hmac_sha256 (api_app_secret self)
        (timestamp ++ "/" ++ nonce ++ "/" ++ api_app_id self ++ "/" ++ identifier
         ++ "/GET/HmacSHA256") in
    (Py.contains (sid self) "/" = false ->
     exists hs : Headers,
       summary_request self env
       = Return {| url := urljoin env "https://api.apsystemsema.com:9282"
                            ("/user/api/v2/systems/summary/" ++ sid self);
                   params := [];
                   headers := hs |}
       /\ header "x-ca-signature" hs = Some (signature (sid self)))
    /\ (Py.contains (ecu_id self) "/" = false ->
        exists hs : Headers,
          energy_request self env
          = Return {| url := urljoin env "https://api.apsystemsema.com:9282"
                               ("/user/api/v2/systems/" ++ sid self
                                ++ "/devices/ecu/energy/" ++ ecu_id self);
                      params := [ ("energy_level", "minutely");
                                  ("date_range", strftime_Ymd (datetime_now env 1%nat)) ];
                      headers := hs |}
          /\ header "x-ca-signature" hs = Some (signature (ecu_id self))).
Proof.
  intros self env timestamp nonce signature. split; intros Hid.
  - unfold summary_request, _request_headers. rewrite signing_string_eq.
    rewrite (summary_path_segment _ Hid). cbn [bind].
    eexists. split; [reflexivity |]. reflexivity.
  - unfold energy_request, _request_headers. rewrite signing_string_eq.
    rewrite (energy_path_segment _ _ Hid). cbn [bind].
    eexists. split; [reflexivity |]. reflexivity.
Qed.

Lemma requests_sign_their_identifier_witness :
  Py.contains (sid sample_api) "/" = false
  /\ Py.contains (ecu_id sample_api) "/" = false
  /\ (exists hs : Headers,
         summary_request sample_api offline_env
         = Return {| url := urljoin offline_env "https://api.apsystemsema.com:9282"
                              "/user/api/v2/systems/summary/SID1";
                     params := [];
                     headers := hs |}
         /\ header "x-ca-signature" hs
            = Some (_hmac_sha256 "secret"
                      "1700000000/0123456789abcdef0123456789abcdef/app/SID1/GET/HmacSHA256"))
  /\ (exists hs : Headers,
         energy_request sample_api offline_env
         = Return {| url := urljoin offline_env "https://api.apsystemsema.com:9282"
                              "/user/api/v2/systems/SID1/devices/ecu/energy/ECU1";
                     params := [ ("energy_level", "minutely"); ("date_range", "2023-11-14") ];
                     headers := hs |}
         /\ header "x-ca-signature" hs
            = Some (_hmac_sha256 "secret"
                      "1700000000/0123456789abcdef0123456789abcdef/app/ECU1/GET/HmacSHA256")).
Proof.
  split; [reflexivity |]. split; [reflexivity |].
  exact (conj (proj1 (requests_sign_their_identifier sample_api offline_env) eq_refl)
              (proj2 (requests_sign_their_identifier sample_api offline_env) eq_refl)).
Defined.

(** X7.  The headers of the minutely-energy request do not cover the site:
    two clients that differ in their site id only, with a device id that
    holds no slash, send the same headers, signature included. *)
Theorem energy_headers_ignore_site :
  forall (self : APSystemsApi) (other_site : string) (env : Env),
    let other :=
      {| api_app_id := api_app_id self; api_app_secret := api_app_secret self;
         sid := other_site; ecu_id := ecu_id self |} in
    Py.contains (ecu_id self) "/" = false ->
    (request <- energy_request self env ;; Return (headers request))
    = (request <- energy_request other env ;; Return (headers request)).
Proof.
  intros self other_site env other Hid.
  unfold energy_request, _request_headers. rewrite !signing_string_eq.
  cbn [ecu_id sid other api_app_id api_app_secret].
  rewrite !(energy_path_segment _ _ Hid). reflexivity.
Qed.

Lemma energy_headers_ignore_site_witness :
  (request <- energy_request sample_api offline_env ;; Return (headers request))
  = (request <- energy_request
                  {| api_app_id := "app"; api_app_secret := "secret";
                     sid := "SID2"; ecu_id := "ECU1" |} offline_env ;;
     Return (headers request)).
Proof.
  exact (energy_headers_ignore_site sample_api "SID2" offline_env eq_refl).
Defined.

(** ** How the fetch operations fail *)

(** The call that sends [request] gets no response: the connection fails. *)
Definition gets_no_response (request : result Request) (env : Env) : Prop :=
  exists sent : Request, request = Return sent /\ server env sent = Failed.

(** X8.  A failure of the connection is not handled by the client: both
    operations let the [RequestException] through. *)
Theorem connection_failure_propagates :
  forall (self : APSystemsApi) (env : Env),
    (gets_no_response (summary_request self env) env ->
     system_summary self env = Raise RequestException)
    /\ (gets_no_response (energy_request self env) env ->
        ecu_minutely_energy self env = Raise RequestException).
Proof.
  intros self env. split; intros (request & Hrequest & Hserver).
  - unfold system_summary, requests_get. rewrite Hrequest. cbn [bind].
    rewrite Hserver. reflexivity.
  - unfold ecu_minutely_energy, requests_get. rewrite Hrequest. cbn [bind].
    rewrite Hserver. reflexivity.
Qed.

Lemma offline_gets_no_response (self : APSystemsApi) :
  gets_no_response (summary_request self offline_env) offline_env
  /\ gets_no_response (energy_request self offline_env) offline_env.
Proof.
  split.
  - destruct (summary_request_returns self offline_env) as [request E].
    exists request. split; [exact E | reflexivity].
  - destruct (energy_request_returns self offline_env) as [request E].
    exists request. split; [exact E | reflexivity].
Defined.

Lemma connection_failure_propagates_witness :
  system_summary sample_api offline_env = Raise RequestException
  /\ ecu_minutely_energy sample_api offline_env = Raise RequestException.
Proof.
  exact (conj
           (proj1 (connection_failure_propagates sample_api offline_env)
                  (proj1 (offline_gets_no_response sample_api)))
           (proj2 (connection_failure_propagates sample_api offline_env)
                  (proj2 (offline_gets_no_response sample_api)))).
Defined.

Lemma read_envelope_http_error (response : Response) :
  400 <= status_code response < 600 ->
  read_envelope response = Raise (HTTPError (status_code response)).
Proof.
  intros [Hlow Hhigh]. unfold read_envelope, raise_for_status.
  apply Z.leb_le in Hlow. apply Z.ltb_lt in Hhigh. rewrite Hlow, Hhigh. reflexivity.
Qed.

(** X9.  The status is looked at before the body: a response with a status
    from 400 to 599 makes both operations raise [HTTPError] with that status,
    whatever the body holds, a well-formed success envelope included. *)
Theorem http_error_status_wins :
  forall (self : APSystemsApi) (env : Env) (response : Response),
    400 <= status_code response < 600 ->
    (receives (summary_request self env) env response ->
     system_summary self env = Raise (HTTPError (status_code response)))
    /\ (receives (energy_request self env) env response ->
        ecu_minutely_energy self env = Raise (HTTPError (status_code response))).
Proof.
  intros self env response Hstatus. split; intros Hreceived.
  - rewrite (system_summary_received self env response Hreceived).
    now rewrite (read_envelope_http_error response Hstatus).
  - rewrite (ecu_minutely_energy_received self env response Hreceived).
    now rewrite (read_envelope_http_error response Hstatus).
Qed.

(** A success envelope under the status 503. *)
Lemma http_error_status_wins_witness :
  let response :=
    {| status_code := 503;
       text := JSON.dumps 4 (success_body summary_payload);
       json := Some (success_body summary_payload) |} in
  system_summary sample_api (sample_env response) = Raise (HTTPError 503)
  /\ ecu_minutely_energy sample_api (sample_env response) = Raise (HTTPError 503).
Proof.
  intros response.
  destruct (constant_server_receives sample_api (sample_env response) response
              (fun request => eq_refl)) as [Hfirst Hsecond].
  destruct (http_error_status_wins sample_api (sample_env response) response
              (conj (proj1 (Z.leb_le 400 503) eq_refl) (proj1 (Z.ltb_lt 503 600) eq_refl)))
    as [Hsummary Henergy].
  exact (conj (Hsummary Hfirst) (Henergy Hsecond)).
Defined.

Lemma status_passes (response : Response) :
  status_code response < 400 \/ 600 <= status_code response ->
  raise_for_status response = Return tt.
Proof.
  intros H. unfold raise_for_status.
  destruct (400 <=? status_code response) eqn:Hlow;
    destruct (status_code response <? 600) eqn:Hhigh; try reflexivity.
  apply Z.leb_le in Hlow. apply Z.ltb_lt in Hhigh. lia.
Qed.

(** X10.  With a status outside 400 to 599, what the body is decides the
    error.  A body that is not JSON raises [JSONDecodeError]; a JSON value
    that is no object raises [TypeError]; an object without [code] raises
    [KeyError]; and with a zero [code], an object without [data] raises
    [KeyError] and a [data] that is no object raises [TypeError].  Both
    operations behave so. *)
Theorem malformed_body_errors :
  forall (self : APSystemsApi) (env : Env) (response : Response),
    status_code response < 400 \/ 600 <= status_code response ->
    receives (summary_request self env) env response ->
    receives (energy_request self env) env response ->
    let both (e : exn) :=
      system_summary self env = Raise e /\ ecu_minutely_energy self env = Raise e in
    (json response = None -> both JSONDecodeError)
    /\ (forall body : JSON.value,
           json response = Some body ->
           (forall members, body <> JSON.Object members) -> both TypeError)
    /\ (forall members : list (string * JSON.value),
           json response = Some (JSON.Object members) ->
           JSON.dict_contains members "code" = false -> both KeyError)
    /\ (forall (members : list (string * JSON.value)) (code : JSON.value),
           json response = Some (JSON.Object members) ->
           JSON.dict_getitem members "code" = Return code ->
           JSON.ne_zero code = false ->
           (JSON.dict_contains members "data" = false -> both KeyError)
           /\ (forall payload : JSON.value,
                  JSON.dict_getitem members "data" = Return payload ->
                  (forall fields, payload <> JSON.Object fields) -> both TypeError)).
Proof.
  intros self env response Hstatus Hsummary Henergy both. subst both. cbv beta.
  rewrite (system_summary_received self env response Hsummary).
  rewrite (ecu_minutely_energy_received self env response Henergy).
  unfold read_envelope, response_json, check_code.
  rewrite (status_passes response Hstatus). cbn [bind].
  split; [| split; [| split]].
  - intros ->. split; reflexivity.
  - intros body -> Hshape. cbn [bind].
    destruct body; cbn [JSON.getitem bind]; try (split; reflexivity).
    now destruct (Hshape members).
  - intros members -> Hcode. cbn [bind JSON.getitem].
    apply dict_getitem_contains in Hcode. rewrite Hcode. split; reflexivity.
  - intros members code -> Hcode Hzero. cbn [bind JSON.getitem].
    rewrite Hcode. cbn [bind]. rewrite Hzero. cbn [bind]. split.
    + intros Hdata. apply dict_getitem_contains in Hdata. rewrite Hdata. split; reflexivity.
    + intros payload -> Hshape. cbn [bind].
      destruct payload; cbn [SystemSummaryData.new ECUMinutelyEnergyData.new unpack_kwargs bind];
        try (split; reflexivity).
      now destruct (Hshape members0).
Qed.

(** A page of HTML, and a JSON list, under the status 200. *)
Lemma malformed_body_errors_witness :
  let page := {| status_code := 200; text := "<html></html>"; json := None |} in
  let listing := {| status_code := 200; text := "[]"; json := Some (JSON.Array []) |} in
  (system_summary sample_api (sample_env page) = Raise JSONDecodeError
   /\ ecu_minutely_energy sample_api (sample_env page) = Raise JSONDecodeError)
  /\ (system_summary sample_api (sample_env listing) = Raise TypeError
      /\ ecu_minutely_energy sample_api (sample_env listing) = Raise TypeError).
Proof.
  intros page listing. split.
  - destruct (constant_server_receives sample_api (sample_env page) page
                (fun request => eq_refl)) as [Hfirst Hsecond].
    exact (proj1 (malformed_body_errors sample_api (sample_env page) page
                    (or_introl (proj1 (Z.ltb_lt 200 400) eq_refl)) Hfirst Hsecond)
                 eq_refl).
  - destruct (constant_server_receives sample_api (sample_env listing) listing
                (fun request => eq_refl)) as [Hfirst Hsecond].
    refine (proj1 (proj2 (malformed_body_errors sample_api (sample_env listing) listing
                            (or_introl (proj1 (Z.ltb_lt 200 400) eq_refl)) Hfirst Hsecond))
                  (JSON.Array []) eq_refl _).
    intros members. discriminate.
Defined.

(** ** When the fetch operations succeed *)

(** A response that carries a success envelope around [payload]: the status
    is outside 400 to 599 and the body is an object whose [code] compares
    equal to zero and whose [data] is [payload]. *)
Definition success_envelope (response : Response) (payload : JSON.value) : Prop :=
  (status_code response < 400 \/ 600 <= status_code response)
  /\ exists (members : list (string * JSON.value)) (code : JSON.value),
       json response = Some (JSON.Object members)
       /\ JSON.dict_getitem members "code" = Return code
       /\ JSON.ne_zero code = false
       /\ JSON.dict_getitem members "data" = Return payload.

Lemma read_envelope_returns (response : Response) (payload : JSON.value) :
  read_envelope response = Return payload <-> success_envelope response payload.
Proof.
  unfold read_envelope, success_envelope, raise_for_status, response_json, check_code. split.
  - intros H.
    destruct ((400 <=? status_code response) && (status_code response <? 600)) eqn:Hstatus;
      cbn [bind] in H; [discriminate |].
    destruct (json response) as [data |]; cbn [bind] in H; [| discriminate].
    destruct data; cbn [JSON.getitem bind] in H; try discriminate.
    destruct (JSON.dict_getitem members "code") as [code |] eqn:Hcode;
      cbn [bind] in H; [| discriminate].
    destruct (JSON.ne_zero code) eqn:Hzero; cbn [bind] in H; [discriminate |].
    split.
    + apply andb_false_iff in Hstatus as [Hs | Hs];
        [apply Z.leb_gt in Hs | apply Z.ltb_ge in Hs]; lia.
    + exists members, code. auto.
  - intros [Hstatus (members & code & Hjson & Hcode & Hzero & Hdata)].
    replace ((400 <=? status_code response) && (status_code response <? 600)) with false.
    + rewrite Hjson. cbn [bind JSON.getitem]. rewrite Hcode. cbn [bind].
      rewrite Hzero. cbn [bind]. exact Hdata.
    + symmetry. apply andb_false_iff.
      destruct Hstatus; [left; apply Z.leb_gt | right; apply Z.ltb_ge]; lia.
Qed.

Lemma keyword_argument_returns (kwargs : list (string * JSON.value)) (field : string)
    (v : JSON.value) :
  keyword_argument kwargs field = Return v <-> JSON.dict_getitem kwargs field = Return v.
Proof.
  unfold keyword_argument. destruct (JSON.dict_getitem kwargs field); split; congruence.
Qed.

Lemma reject_unexpected_returns (fields : list string) (kwargs : list (string * JSON.value)) :
  reject_unexpected fields kwargs = Return tt
  <-> (forall key, JSON.dict_contains kwargs key = true -> In key fields).
Proof.
  split.
  - intros H key Hkey.
    destruct (in_dec string_dec key fields) as [Hin | Hout]; [exact Hin |].
    rewrite (reject_unexpected_extra _ _ key Hkey Hout) in H. discriminate.
  - intros Hkeys. unfold reject_unexpected.
    replace (forallb _ kwargs) with true; [reflexivity |].
    symmetry. apply forallb_forall. intros [k v] Hkv. cbn [fst].
    apply existsb_exists. exists k. split; [| apply String.eqb_refl].
    apply Hkeys. apply existsb_exists. exists (k, v). split; [exact Hkv | apply String.eqb_refl].
Qed.

(** A [data] object with exactly the four values of a summary and no other
    key. *)
Definition summary_payload_of (r : SystemSummaryData.t) (payload : JSON.value) : Prop :=
  exists members : list (string * JSON.value),
    payload = JSON.Object members
    /\ (forall key, JSON.dict_contains members key = true -> In key SystemSummaryData.fields)
    /\ JSON.dict_getitem members "month" = Return (SystemSummaryData.month r)
    /\ JSON.dict_getitem members "year" = Return (SystemSummaryData.year r)
    /\ JSON.dict_getitem members "today" = Return (SystemSummaryData.today r)
    /\ JSON.dict_getitem members "lifetime" = Return (SystemSummaryData.lifetime r).

(** The same for the minutely record. *)
Definition energy_payload_of (r : ECUMinutelyEnergyData.t) (payload : JSON.value) : Prop :=
  exists members : list (string * JSON.value),
    payload = JSON.Object members
    /\ (forall key, JSON.dict_contains members key = true -> In key ECUMinutelyEnergyData.fields)
    /\ JSON.dict_getitem members "today" = Return (ECUMinutelyEnergyData.today r)
    /\ JSON.dict_getitem members "time" = Return (ECUMinutelyEnergyData.time r)
    /\ JSON.dict_getitem members "power" = Return (ECUMinutelyEnergyData.power r)
    /\ JSON.dict_getitem members "energy" = Return (ECUMinutelyEnergyData.energy r).

Lemma summary_new_returns_iff (payload : JSON.value) (r : SystemSummaryData.t) :
  SystemSummaryData.new payload = Return r <-> summary_payload_of r payload.
Proof.
  unfold SystemSummaryData.new, summary_payload_of. split.
  - intros H. destruct payload; cbn [unpack_kwargs bind] in H; try discriminate.
    bind_inv H; try discriminate. injection H as <-.
    repeat match goal with u : unit |- _ => destruct u end.
    exists members. split; [reflexivity |].
    split; [now apply reject_unexpected_returns |].
    repeat split; now apply keyword_argument_returns.
  - intros (members & -> & Hkeys & Hmonth & Hyear & Htoday & Hlifetime).
    cbn [unpack_kwargs bind].
    apply reject_unexpected_returns in Hkeys. rewrite Hkeys. cbn [bind].
    apply keyword_argument_returns in Hmonth, Hyear, Htoday, Hlifetime.
    rewrite Hmonth, Hyear, Htoday, Hlifetime. cbn [bind]. now destruct r.
Qed.

Lemma energy_new_returns_iff (payload : JSON.value) (r : ECUMinutelyEnergyData.t) :
  ECUMinutelyEnergyData.new payload = Return r <-> energy_payload_of r payload.
Proof.
  unfold ECUMinutelyEnergyData.new, energy_payload_of. split.
  - intros H. destruct payload; cbn [unpack_kwargs bind] in H; try discriminate.
    bind_inv H; try discriminate. injection H as <-.
    repeat match goal with u : unit |- _ => destruct u end.
    exists members. split; [reflexivity |].
    split; [now apply reject_unexpected_returns |].
    repeat split; now apply keyword_argument_returns.
  - intros (members & -> & Hkeys & Htoday & Htime & Hpower & Henergy).
    cbn [unpack_kwargs bind].
    apply reject_unexpected_returns in Hkeys. rewrite Hkeys. cbn [bind].
    apply keyword_argument_returns in Htoday, Htime, Hpower, Henergy.
    rewrite Htoday, Htime, Hpower, Henergy. cbn [bind]. now destruct r.
Qed.

(** X12.  [system_summary] returns a record exactly when the response has a
    status outside 400 to 599 and a body that is an object with a [code]
    equal to zero and a [data] object whose keys are [month], [year],
    [today] and [lifetime] and no other; the record then holds the four
    values as they came, of whatever type they are. *)
Theorem system_summary_returns_exactly_when :
  forall (self : APSystemsApi) (env : Env) (response : Response) (r : SystemSummaryData.t),
    receives (summary_request self env) env response ->
    (system_summary self env = Return r
     <-> exists payload : JSON.value,
           success_envelope response payload /\ summary_payload_of r payload).
Proof.
  intros self env response r Hreceived.
  rewrite (system_summary_received self env response Hreceived). split.
  - intros H. destruct (read_envelope response) as [payload |] eqn:Hread;
      cbn [bind] in H; [| discriminate].
    exists payload. split; [now apply read_envelope_returns | now apply summary_new_returns_iff].
  - intros (payload & Henvelope & Hpayload).
    apply read_envelope_returns in Henvelope. rewrite Henvelope. cbn [bind].
    now apply summary_new_returns_iff.
Qed.

(** X13.  [ecu_minutely_energy] returns a record exactly when the response
    has a status outside 400 to 599 and a body that is an object with a
    [code] equal to zero and a [data] object whose keys are [today], [time],
    [power] and [energy] and no other; the record then holds the four values
    as they came. *)
Theorem ecu_minutely_energy_returns_exactly_when :
  forall (self : APSystemsApi) (env : Env) (response : Response) (r : ECUMinutelyEnergyData.t),
    receives (energy_request self env) env response ->
    (ecu_minutely_energy self env = Return r
     <-> exists payload : JSON.value,
           success_envelope response payload /\ energy_payload_of r payload).
Proof.
  intros self env response r Hreceived.
  rewrite (ecu_minutely_energy_received self env response Hreceived). split.
  - intros H. destruct (read_envelope response) as [payload |] eqn:Hread;
      cbn [bind] in H; [| discriminate].
    exists payload. split; [now apply read_envelope_returns | now apply energy_new_returns_iff].
  - intros (payload & Henvelope & Hpayload).
    apply read_envelope_returns in Henvelope. rewrite Henvelope. cbn [bind].
    now apply energy_new_returns_iff.
Qed.

Lemma summary_payload_keys (key : string) :
  JSON.dict_contains
    [ ("month", JSON.Float {| JSON.repr := "12.3" |});
      ("year", JSON.Float {| JSON.repr := "456.7" |});
      ("today", JSON.Float {| JSON.repr := "1.2" |});
      ("lifetime", JSON.Float {| JSON.repr := "999.9" |}) ] key = true ->
  In key SystemSummaryData.fields.
Proof.
  unfold JSON.dict_contains. cbn [existsb fst]. intros H.
  repeat (apply orb_true_iff in H as [H | H];
          [apply String.eqb_eq in H; subst; cbn [In SystemSummaryData.fields]; auto |]).
  discriminate.
Defined.

Lemma sample_success_envelope (payload : JSON.value) :
  success_envelope (json_response (success_body payload)) payload.
Proof.
  split.
  - left. reflexivity.
  - exists [("code", JSON.Int 0); ("data", payload)], (JSON.Int 0). repeat split.
Defined.

(** The success scenario of the specification. *)
Lemma system_summary_returns_exactly_when_witness :
  system_summary sample_api (sample_env (json_response (success_body summary_payload)))
  = Return {| SystemSummaryData.month := JSON.Float {| JSON.repr := "12.3" |};
              SystemSummaryData.year := JSON.Float {| JSON.repr := "456.7" |};
              SystemSummaryData.today := JSON.Float {| JSON.repr := "1.2" |};
              SystemSummaryData.lifetime := JSON.Float {| JSON.repr := "999.9" |} |}.
Proof.
  apply (proj2 (system_summary_returns_exactly_when sample_api
                  (sample_env (json_response (success_body summary_payload)))
                  (json_response (success_body summary_payload)) _
                  (proj1 (constant_server_receives sample_api
                            (sample_env (json_response (success_body summary_payload)))
                            (json_response (success_body summary_payload))
                            (fun request => eq_refl))))).
  exists summary_payload. split; [apply sample_success_envelope |].
  eexists. split; [reflexivity |]. split; [exact summary_payload_keys |].
  split; [| split; [| split]]; reflexivity.
Defined.

Lemma ecu_minutely_energy_returns_exactly_when_witness :
  ecu_minutely_energy sample_api (sample_env (json_response (success_body regular_payload)))
  = Return {| ECUMinutelyEnergyData.today := JSON.Float {| JSON.repr := "1.5" |};
              ECUMinutelyEnergyData.time := JSON.Array [JSON.Str "10:00"; JSON.Str "10:05"];
              ECUMinutelyEnergyData.power := JSON.Array [JSON.Int 5; JSON.Int 7];
              ECUMinutelyEnergyData.energy :=
                JSON.Array [JSON.Float {| JSON.repr := "0.1" |};
                            JSON.Float {| JSON.repr := "0.2" |}] |}.
Proof.
  apply (proj2 (ecu_minutely_energy_returns_exactly_when sample_api
                  (sample_env (json_response (success_body regular_payload)))
                  (json_response (success_body regular_payload)) _
                  (proj2 (constant_server_receives sample_api
                            (sample_env (json_response (success_body regular_payload)))
                            (json_response (success_body regular_payload))
                            (fun request => eq_refl))))).
  exists regular_payload. split; [apply sample_success_envelope |].
  eexists. split; [reflexivity |]. split; [exact regular_payload_keys |].
  split; [| split; [| split]]; reflexivity.
Defined.

(** X14.  Fetching and then reading the latest sample: for a success
    envelope whose [power] and [energy] are lists, the latest power and the
    latest energy of the fetched record are the last items of those lists.
    When a list is empty, as before the first sample of the day, the fetch
    itself succeeds and it is the reading of the latest sample that raises
    [IndexError]. *)
Theorem latest_of_fetched_record :
  forall (self : APSystemsApi) (env : Env) (response : Response)
         (members : list (string * JSON.value)) (today time : JSON.value)
         (powers energies : list JSON.value),
    receives (energy_request self env) env response ->
    success_envelope response (JSON.Object members) ->
    (forall key, JSON.dict_contains members key = true -> In key ECUMinutelyEnergyData.fields) ->
    JSON.dict_getitem members "today" = Return today ->
    JSON.dict_getitem members "time" = Return time ->
    JSON.dict_getitem members "power" = Return (JSON.Array powers) ->
    JSON.dict_getitem members "energy" = Return (JSON.Array energies) ->
    (exists r, ecu_minutely_energy self env = Return r)
    /\ (r <- ecu_minutely_energy self env ;; ECUMinutelyEnergyData.latest_power r)
       = match powers with
         | [] => Raise IndexError
         | _ :: _ => Return (List.last powers JSON.Null)
         end
    /\ (r <- ecu_minutely_energy self env ;; ECUMinutelyEnergyData.latest_energy r)
       = match energies with
         | [] => Raise IndexError
         | _ :: _ => Return (List.last energies JSON.Null)
         end.
Proof.
  intros self env response members today time powers energies
         Hreceived Henvelope Hkeys Htoday Htime Hpower Henergy.
  rewrite (ecu_minutely_energy_received self env response Hreceived).
  apply read_envelope_returns in Henvelope. rewrite Henvelope. cbn [bind].
  rewrite (energy_new_exact members today time (JSON.Array powers) (JSON.Array energies)
             Hkeys Htoday Htime Hpower Henergy).
  cbn [bind]. split; [eauto |].
  unfold ECUMinutelyEnergyData.latest_power, ECUMinutelyEnergyData.latest_energy.
  cbn [ECUMinutelyEnergyData.power ECUMinutelyEnergyData.energy JSON.getitem_int].
  split.
  - destruct powers as [| p ps]; [apply list_getitem_empty |].
    apply list_getitem_last. discriminate.
  - destruct energies as [| x xs]; [apply list_getitem_empty |].
    apply list_getitem_last. discriminate.
Qed.

(** A day without samples yet. *)
Definition empty_day_payload : JSON.value :=
  JSON.Object [ ("today", JSON.Int 0); ("time", JSON.Array []);
                ("power", JSON.Array []); ("energy", JSON.Array []) ].

Lemma empty_day_payload_keys (key : string) :
  JSON.dict_contains
    [ ("today", JSON.Int 0); ("time", JSON.Array []);
      ("power", JSON.Array []); ("energy", JSON.Array []) ] key = true ->
  In key ECUMinutelyEnergyData.fields.
Proof.
  unfold JSON.dict_contains. cbn [existsb fst]. intros H.
  repeat (apply orb_true_iff in H as [H | H];
          [apply String.eqb_eq in H; subst; cbn [In ECUMinutelyEnergyData.fields]; auto |]).
  discriminate.
Defined.

Lemma latest_of_fetched_record_witness :
  let env := sample_env (json_response (success_body empty_day_payload)) in
  (exists r, ecu_minutely_energy sample_api env = Return r)
  /\ (r <- ecu_minutely_energy sample_api env ;; ECUMinutelyEnergyData.latest_power r)
     = Raise IndexError
  /\ (r <- ecu_minutely_energy sample_api env ;; ECUMinutelyEnergyData.latest_energy r)
     = Raise IndexError.
Proof.
  intros env.
  exact (latest_of_fetched_record sample_api env
           (json_response (success_body empty_day_payload)) _
           (JSON.Int 0) (JSON.Array []) [] []
           (proj2 (constant_server_receives sample_api env
                     (json_response (success_body empty_day_payload))
                     (fun request => eq_refl)))
           (sample_success_envelope empty_day_payload)
           empty_day_payload_keys eq_refl eq_refl eq_refl eq_refl).
Defined.

(** ** The sensor over several polls *)

Lemma update_returns (self : APSystemsSensor) (env : Env) :
  update self env
  = Return {| _state := Some (match system_summary (_api self) env with
                              | Return _ => "TEST"
                              | Raise _ => STATE_UNAVAILABLE
                              end);
              _name := _name self; _sunset := _sunset self; _api := _api self |}.
Proof.
  unfold update.
  destruct (system_summary (_api self) env) as [summary | e] eqn:Hcall;
    cbn [bind try_except_Exception]; [reflexivity |].
  now rewrite (system_summary_raises _ _ _ Hcall).
Qed.

(** X15.  The state keeps no memory: after two polls the sensor is what the
    second poll alone would have made of it.  A failed poll is thus forgotten
    at the next good one, and a good one at the next failure. *)
Theorem update_keeps_only_the_last_outcome :
  forall (self : APSystemsSensor) (env1 env2 : Env),
    (after <- update self env1 ;; update after env2) = update self env2.
Proof.
  intros self env1 env2.
  rewrite (update_returns self env1). cbn [bind].
  rewrite !update_returns. reflexivity.
Qed.

(** X16.  A poll changes the state and nothing else: the name, the flag and
    the client stay, and [available] answers after the poll as it did before,
    whatever the poll's outcome. *)
Theorem update_leaves_availability_alone :
  forall (self : APSystemsSensor) (env : Env),
  exists after : APSystemsSensor,
    update self env = Return after
    /\ _name after = _name self
    /\ _sunset after = _sunset self
    /\ _api after = _api self
    /\ (forall hass : Hass, available after hass = available self hass).
Proof.
  intros self env. rewrite update_returns. eexists. split; [reflexivity |].
  repeat split.
Qed.

(** ** Availability at the edges *)

(** X17.  With the window on, a day for which the astral computation gives
    no sunrise or no sunset (the polar day and night) makes [available] raise
    [AttributeError]: it returns neither true nor false. *)
Theorem available_raises_without_sunrise_or_sunset :
  forall (self : APSystemsSensor) (hass : Hass),
    let now := as_local hass {| instant := dt_utcnow hass; utcoffset := 0 |} in
    _sunset self <> "False" ->
    get_astral_event_date hass SUN_EVENT_SUNRISE (date now) = None
    \/ get_astral_event_date hass SUN_EVENT_SUNSET (date now) = None ->
    available self hass = Raise AttributeError.
Proof.
  intros self hass now Hflag Hnone.
  unfold available. apply String.eqb_neq in Hflag. rewrite Hflag.
  fold now. unfold find_start_time, find_stop_time.
  destruct (get_astral_event_date hass SUN_EVENT_SUNRISE (date now)) as [sunrise |];
    cbn [as_local_opt bind]; [| reflexivity].
  destruct Hnone as [Hnone | Hnone]; [discriminate |]. rewrite Hnone.
  destruct (datetime_le (as_local hass sunrise) now); reflexivity.
Qed.

(** A host where the sun rises at 06:00 and does not set. *)
Definition midsummer_hass (minute : Z) : Hass :=
  {| dt_utcnow := local_time 19675 minute;
     local_offset := fun _ => sample_offset;
     get_astral_event_date := fun event day =>
       match event with
       | SUN_EVENT_SUNRISE => Some {| instant := local_time day (6 * 60); utcoffset := 0 |}
       | SUN_EVENT_SUNSET => None
       end |}.

Lemma available_raises_without_sunrise_or_sunset_witness :
  available (sample_sensor None) (midsummer_hass (5 * 60)) = Raise AttributeError
  /\ available (sample_sensor None) (midsummer_hass (12 * 60)) = Raise AttributeError.
Proof.
  assert (Hflag : _sunset (sample_sensor None) <> "False") by discriminate.
  split.
  - exact (available_raises_without_sunrise_or_sunset (sample_sensor None)
             (midsummer_hass (5 * 60)) Hflag (or_intror eq_refl)).
  - exact (available_raises_without_sunrise_or_sunset (sample_sensor None)
             (midsummer_hass (12 * 60)) Hflag (or_intror eq_refl)).
Defined.

Lemma window_on_at_midnight (self : APSystemsSensor) :
  _sunset self <> "False" -> available self (sample_hass 0) = Return false.
Proof.
  intros Hflag. unfold available. apply String.eqb_neq in Hflag. rewrite Hflag. reflexivity.
Qed.

(** X18.  What switches the window off in the configuration: the YAML
    boolean false (written [off], [no] or [false]) and the string ["False"],
    and nothing else.  With any other value, and with the option left out,
    whose default is the string ["off"], there are times at which the sensor
    is not available. *)
Theorem window_off_exactly_for_false :
  forall (sensor_name : string) (sunset : option Scalar) (api : APSystemsApi),
    (forall hass : Hass, available (new_sensor sensor_name sunset api) hass = Return true)
    <-> (sunset = Some (YamlBool false) \/ sunset = Some (YamlStr "False")).
Proof.
  intros sensor_name sunset api. split.
  - intros Halways.
    destruct (string_dec (_sunset (new_sensor sensor_name sunset api)) "False") as [E | NE].
    + cbn [new_sensor _sunset] in E.
      destruct sunset as [[s | []] |]; cbn [config_sunset cv_string] in E;
        try discriminate; [right; now subst | left; reflexivity].
    + specialize (Halways (sample_hass 0)).
      rewrite (window_on_at_midnight _ NE) in Halways. discriminate.
  - intros [-> | ->] hass; reflexivity.
Qed.

(** ** The platform set-up *)

Lemma string_app_inj (prefix a b : string) : prefix ++ a = prefix ++ b -> a = b.
Proof.
  induction prefix as [| c prefix IH]; cbn; [auto |].
  intros H. injection H as H. auto.
Qed.

(** X19.  Given a name, [setup_platform] hands over three sensors, one per
    metric in the order of [SENSORS], named after the name in lower case
    followed by an underscore and the metric; the three names differ.  Every
    sensor starts without a state and shares the client built from the
    configured credentials and the configured flag; the energy sensors are in
    kWh and the power sensor in W. *)
Theorem setup_platform_adds_three_sensors :
  forall (app_id secret site device given_name : string) (sunset : option Scalar),
    let config :=
      {| conf_api_app_id := app_id; conf_api_app_secret := secret; conf_sid := site;
         conf_ecu_id := device; conf_sunset := sunset; conf_name := Some given_name |} in
    let api :=
      {| api_app_id := app_id; api_app_secret := secret; sid := site; ecu_id := device |} in
    exists entities : list Entity,
      setup_platform config = Return entities
      /\ List.map name entities
         = [ Py.lower given_name ++ "_energy_today";
             Py.lower given_name ++ "_energy_latest";
             Py.lower given_name ++ "_power_latest" ]
      /\ NoDup (List.map name entities)
      /\ Forall (fun e => state e = None
                          /\ _api (sensor e) = api
                          /\ _sunset (sensor e) = config_sunset sunset) entities
      /\ List.map unit_of_measurement entities = ["kWh"; "kWh"; "W"].
Proof.
  intros app_id secret site device given_name sunset config api.
  eexists. split; [reflexivity |].
  split; [reflexivity |]. split; [| split; [| reflexivity]].
  - cbn [List.map name sensor _name new_sensor].
    repeat constructor; cbn [In]; intros H;
      repeat (destruct H as [H | H]; [apply string_app_inj in H; discriminate |]);
      exact H.
  - repeat constructor.
Qed.

(** X20.  Without a name in the configuration [setup_platform] raises
    [AttributeError] and hands over no sensor: the schema of the platform
    declares no name, and the name is read and lowered without a check. *)
Theorem setup_platform_needs_a_name :
  forall (app_id secret site device : string) (sunset : option Scalar),
    setup_platform
      {| conf_api_app_id := app_id; conf_api_app_secret := secret; conf_sid := site;
         conf_ecu_id := device; conf_sunset := sunset; conf_name := None |}
    = Raise AttributeError.
Proof.
  intros. reflexivity.
Qed.
